(** * Signal Quality Index: a model of [SignalQualityIndex.py]

    The scorer [SQI] and its filter helper [fir_filter] are embedded over
    binary64 floating-point numbers (Rocq's primitive [float], the type of
    Python's [float] and NumPy's [float64]), so comparisons, divisions by
    zero and NaN behave as they do when the program runs.  The NumPy and
    SciPy array routines the program calls are not part of the repository:
    they are the fields of a [Library] record, and every theorem about the
    program holds for every library.  [Reference] gives one executable
    library, used to run the model on concrete signals. *)

From Stdlib Require Import ZArith List Bool Lia Floats.
From Stdlib Require Reals Lra.
Import ListNotations.

Set Warnings "-inexact-float".

Local Open Scope float_scope.

(** ** Python results *)

(** The built-in exceptions the program and its library calls can raise. *)
Inductive exn : Set :=
| ZeroDivisionError
| ValueError
| OverflowError.

(** A Python computation either returns a value or raises. *)
Inductive result (A : Type) : Type :=
| Ok (a : A)
| Raise (e : exn).

Arguments Ok {A} a.
Arguments Raise {A} e.

Definition bind {A B : Type} (r : result A) (k : A -> result B) : result B :=
  match r with
  | Ok a => k a
  | Raise e => Raise e
  end.

Declare Scope py_scope.
Delimit Scope py_scope with py.
Notation "x <- r ;; k" := (bind r (fun x => k))
  (at level 61, r at next level, right associativity) : py_scope.
Notation "' p <- r ;; k" := (bind r (fun x => let 'p := x in k))
  (at level 61, p pattern, r at next level, right associativity) : py_scope.

(** The value [SQI] returns: the gates and the clamp assign the Python
    integers 1 and 5, the regression of stage three a float. *)
Inductive score : Set :=
| SInt (n : Z)
| SFloat (x : float).

(** ** Python scalars *)

Module Py.

(** [x / y] on Python floats: a zero divisor raises. *)
Definition div (x y : float) : result float :=
  if y =? 0 then Raise ZeroDivisionError else Ok (x / y).

(** The integer part of a finite float's magnitude, and whether a
    fraction was dropped. *)
Definition magnitude (m : positive) (e : Z) : Z * bool :=
  if (0 <=? e)%Z then (Z.pos m * 2 ^ e, false)%Z
  else (Z.pos m / 2 ^ (- e), negb (Z.pos m mod 2 ^ (- e) =? 0)%Z)%Z.

(** [math.floor], [math.ceil] and [int] on a float; [None] off the
    finite numbers. *)
Definition floor (x : float) : option Z :=
  match Prim2SF x with
  | S754_zero _ => Some 0%Z
  | S754_finite s m e =>
      let '(q, frac) := magnitude m e in
      Some (if s then (if frac then - q - 1 else - q) else q)%Z
  | S754_infinity _ | S754_nan => None
  end.

Definition ceiling (x : float) : option Z :=
  match Prim2SF x with
  | S754_zero _ => Some 0%Z
  | S754_finite s m e =>
      let '(q, frac) := magnitude m e in
      Some (if s then - q else (if frac then q + 1 else q))%Z
  | S754_infinity _ | S754_nan => None
  end.

Definition trunc (x : float) : option Z :=
  match Prim2SF x with
  | S754_zero _ => Some 0%Z
  | S754_finite s m e =>
      let '(q, _) := magnitude m e in Some (if s then - q else q)%Z
  | S754_infinity _ | S754_nan => None
  end.

(** A conversion to [int] raises [ValueError] on NaN and [OverflowError]
    on an infinity. *)
Definition to_int (conv : float -> option Z) (x : float) : result Z :=
  match conv x with
  | Some n => Ok n
  | None => if is_nan x then Raise ValueError else Raise OverflowError
  end.

Definition int (x : float) : result Z := to_int trunc x.
Definition ceil (x : float) : result Z := to_int ceiling x.

(** [float(n)] for the length of a sequence (exact below 2^53, which
    every length is), and for an [int]. *)
Definition of_nat (n : nat) : float :=
  of_uint63 (Uint63Axioms.of_Z (Z.of_nat n)).

Definition of_Z (z : Z) : float :=
  if (z <? 0)%Z then - of_uint63 (Uint63Axioms.of_Z (- z))
  else of_uint63 (Uint63Axioms.of_Z z).

(** [n > x] for an [int] and a [float]: Python compares the two exactly. *)
Definition int_gt (n : Z) (x : float) : bool :=
  match floor x with
  | Some f => (f <? n)%Z
  | None => x =? neg_infinity
  end.

End Py.

(** ** The external array routines *)

(** NumPy and SciPy as the program sees them.  Reductions and [np.log]
    return NaN or an infinity where they are undefined and never raise;
    [detrend], the kernel synthesis of [firwin], the recursion of
    [filtfilt] and [correlate] may. *)
Record Library : Type := {
  np_sum : list float -> float;
  np_std : list float -> float;
  np_log : float -> float;
  float_pow : float -> float -> float;
  detrend : list float -> result (list float);
  firwin_kernel : Z -> list float -> float -> result (list float);
  filtfilt_apply : list float -> list float -> result (list float);
  correlate : list float -> list float -> result (list float);
  (** [detrend] and [filtfilt] return as many samples as they are given,
      [firwin] as many coefficients as it is asked for. *)
  detrend_length : forall x y, detrend x = Ok y -> length y = length x;
  firwin_kernel_length : forall n c beta h,
    firwin_kernel n c beta = Ok h -> Z.of_nat (length h) = n;
  filtfilt_apply_length : forall b x y,
    filtfilt_apply b x = Ok y -> length y = length x
}.

(** Element-wise NumPy expressions of the program. *)
Module Np.

Definition any_lt (a : list float) (t : float) : bool :=
  existsb (fun x => x <? t) a.

Definition any_gt (a : list float) (t : float) : bool :=
  existsb (fun x => t <? x) a.

Definition abs (a : list float) : list float := map PrimFloat.abs a.

Definition square (a : list float) : list float := map (fun x => x * x) a.

Definition div_scalar (a : list float) (s : float) : list float :=
  map (fun x => x / s) a.

Fixpoint zip_sub (a b : list float) : list float :=
  match a, b with
  | x :: a', y :: b' => (x - y) :: zip_sub a' b'
  | _, _ => []
  end.

(** [a - b] on one-dimensional arrays: equal lengths, or one operand of
    length one that is broadcast; anything else raises [ValueError]. *)
Definition sub (a b : list float) : result (list float) :=
  if (length a =? length b)%nat then Ok (zip_sub a b)
  else match a, b with
       | [x], _ => Ok (map (fun y => x - y) b)
       | _, [y] => Ok (map (fun x => x - y) a)
       | _, _ => Raise ValueError
       end.

(** [a.min()] and [a.max()] of a non-empty array; a NaN propagates. *)
Definition pick (better : float -> float -> bool) (x acc : float) : float :=
  if is_nan acc then acc
  else if is_nan x then x
  else if better x acc then x else acc.

Definition min (a : list float) : float :=
  match a with
  | [] => nan
  | x :: a' => fold_left (fun acc y => pick PrimFloat.ltb y acc) a' x
  end.

Definition max (a : list float) : float :=
  match a with
  | [] => nan
  | x :: a' => fold_left (fun acc y => pick (fun u v => v <? u) y acc) a' x
  end.

Fixpoint diff (a : list float) : list float :=
  match a with
  | x :: ((y :: _) as a') => (y - x) :: diff a'
  | _ => []
  end.

End Np.

(** ** The program *)

Local Open Scope py_scope.

Section Program.

Variable L : Library.

(** *** SciPy's argument checks *)

(** [np.pi]. *)
Definition pi : float := 0x1.921fb54442d18p+1.

(** [scipy.signal.kaiser_beta]. *)
Definition kaiser_beta (a : float) : float :=
  if 50 <? a then 0.1102 * (a - 8.7)
  else if 21 <? a then
    0.5842 * float_pow L (a - 21) 0.4 + 0.07886 * (a - 21)
  else 0.

(** [scipy.signal.kaiserord]: Kaiser's estimate of the number of taps and
    the window parameter, from the ripple in dB and the transition width
    as a fraction of the Nyquist frequency. *)
Definition kaiserord (ripple width : float) : result (Z * float) :=
  let A := abs ripple in
  if A <? 8 then Raise ValueError
  else
    let beta := kaiser_beta A in
    t <- Py.div ((A - 7.95) / 2.285) (pi * width) ;;
    n <- Py.ceil (t + 1) ;;
    Ok (n, beta).

(** [scipy.signal.firwin] with [pass_zero='bandpass'] and a Kaiser
    window: the cut-off frequencies, divided by the Nyquist frequency,
    must lie strictly between 0 and 1 and increase, and there must be at
    least two; the synthesis of the coefficients is the library's. *)
Definition firwin (numtaps : Z) (cutoff : list float) (beta fs : float)
  : result (list float) :=
  let nyq := 0.5 * fs in
  let c := Np.div_scalar cutoff nyq in
  if (length c =? 0)%nat then Raise ValueError
  else if (Np.min c <=? 0) || (1 <=? Np.max c) then Raise ValueError
  else if existsb (fun d => d <=? 0) (Np.diff c) then Raise ValueError
  else if (length c <=? 1)%nat then Raise ValueError
  else if (numtaps <? 0)%Z then Raise ValueError
  else firwin_kernel L numtaps c beta.

(** [scipy.signal.filtfilt(b, 1, x)]: the signal must be longer than the
    padding, three times the number of coefficients. *)
Definition padlen (b : list float) : nat := (3 * Nat.max 1 (length b))%nat.

Definition filtfilt (b x : list float) : result (list float) :=
  if (length x <=? padlen b)%nat then Raise ValueError
  else filtfilt_apply L b x.

(** *** [fir_filter] *)

(** Line 118: the estimate of [kaiserord] at the transition width
    [width / (0.5 * Fs)].  [Fs] is a Python number, so a sampling rate of
    zero raises. *)
Definition order_estimate (Fs width ripple : float) : result (Z * float) :=
  w <- Py.div width (0.5 * Fs) ;;
  kaiserord ripple w.

(** [len(signal) / 3.5]. *)
Definition cap (signal : list float) : float :=
  Py.of_nat (length signal) / 3.5.

(** Lines 118 to 121: the estimate, capped, with its lowest bit set. *)
Definition fir_numtaps (signal : list float) (Fs width ripple : float)
  : result (Z * float) :=
  ' (numtaps, beta) <- order_estimate Fs width ripple ;;
  numtaps <- (if Py.int_gt numtaps (cap signal)
              then Py.int (cap signal) else Ok numtaps) ;;
  Ok (Z.lor numtaps 1, beta).

(** [fir_filter(signal, Fs, cutoff, type='bandpass', width, ripple)]. *)
Definition fir_filter (signal : list float) (Fs : float)
  (cutoff : list float) (width ripple : float) : result (list float) :=
  ' (numtaps, beta) <- fir_numtaps signal Fs width ripple ;;
  filter_coefs_peak <- firwin numtaps cutoff beta Fs ;;
  filtfilt filter_coefs_peak signal.

(** The defaults of [fir_filter]'s keyword arguments. *)
Definition width : float := 0.2.
Definition ripple : float := 65.

(** *** [SQI] *)

Definition thrUp_intensity : float := 2.5.
Definition thrLow_intensity : float := 0.04.
Definition thr_sumHbratio : float := 0.67.
Definition thr_acorrDiffODs : float := 40.
Definition slope : float := 1.795613343002295.
Definition intercept : float := 0.846108994828045.

(** Line 60: a sample of [OD1] or [OD2] outside the linear range. *)
Definition out_of_range (OD1 OD2 : list float) : bool :=
  Np.any_lt OD1 thrLow_intensity || Np.any_gt OD1 thrUp_intensity
  || Np.any_lt OD2 thrLow_intensity || Np.any_gt OD2 thrUp_intensity.

(** Line 66: one of the optical densities is a flat line. *)
Definition flat_line (OD1 OD2 : list float) : bool :=
  (np_std L OD1 =? 0) || (np_std L OD2 =? 0).

(** Lines 73 to 76: one channel detrended and band-pass filtered. *)
Definition preprocess (x : list float) (Fs : float) : result (list float) :=
  d <- detrend L x ;;
  fir_filter d Fs [0.4; 3] width ripple.

(** Line 80: the feature of the third test of stage one. *)
Definition sumHbratio (oxy_filt dxy_filt : list float) : float :=
  np_log L (np_sum L (Np.abs oxy_filt) / np_sum L (Np.abs dxy_filt)).

(** Lines 90 and 91: the autocorrelation divided by the signal's energy. *)
Definition autocorr (x_filt : list float) : result (list float) :=
  c <- correlate L x_filt x_filt ;;
  Ok (Np.div_scalar c (np_sum L (Np.square x_filt))).

(** Line 92: the feature of stage two. *)
Definition acorrDiffODs (OD1_filt OD2_filt : list float) : result float :=
  autocorr_od1_filt <- autocorr OD1_filt ;;
  autocorr_od2_filt <- autocorr OD2_filt ;;
  d <- Np.sub autocorr_od1_filt autocorr_od2_filt ;;
  Ok (1 / np_std L d).

(** Lines 102 and 103: the regression of stage three. *)
Definition logStdHb (oxy_filt dxy_filt : list float) : float :=
  np_log L (np_std L oxy_filt / np_std L dxy_filt).

Definition regression (oxy_filt dxy_filt : list float) : float :=
  logStdHb oxy_filt dxy_filt * slope + intercept.

(** Lines 106 to 111: the score forced between 1 and 5. *)
Definition force (SQIscore : float) : score :=
  if SQIscore <? 1 then SInt 1
  else if 5 <? SQIscore then SInt 5
  else SFloat SQIscore.

(** Lines 90 to 111, on the filtered signals. *)
Definition stage_two_three (OD1_filt OD2_filt oxy_filt dxy_filt : list float)
  : result score :=
  m <- acorrDiffODs OD1_filt OD2_filt ;;
  if thr_acorrDiffODs <? m then Ok (SInt 5)
  else Ok (force (regression oxy_filt dxy_filt)).

Definition SQI (OD1 OD2 oxy dxy : list float) (Fs : float) : result score :=
  if out_of_range OD1 OD2 then Ok (SInt 1)
  else if flat_line OD1 OD2 then Ok (SInt 1)
  else
    OD1_filt <- preprocess OD1 Fs ;;
    OD2_filt <- preprocess OD2 Fs ;;
    oxy_filt <- preprocess oxy Fs ;;
    dxy_filt <- preprocess dxy Fs ;;
    if sumHbratio oxy_filt dxy_filt <? thr_sumHbratio then Ok (SInt 1)
    else stage_two_three OD1_filt OD2_filt oxy_filt dxy_filt.

End Program.

(** ** A sampling rate given as a NumPy scalar

    [Fs] reaches [SQI] as a scalar.  Above it is a Python number ([int] or
    [float]): the divisions of line 118 and of [kaiserord] are Python's,
    and raise on a zero divisor.  When [Fs] is a NumPy scalar
    ([np.float64]) the same two divisions are NumPy's, which return an
    infinity or a NaN and raise nothing.  The definitions below are the
    ones above with that division as a parameter; every other step of the
    program is the same for both. *)

(** [x / y] on NumPy scalars. *)
Definition np_divide (x y : float) : result float := Ok (x / y).

Section Scalars.

Variable L : Library.
Variable divide : float -> float -> result float.

Definition kaiserord_with (ripple width : float) : result (Z * float) :=
  let A := abs ripple in
  if A <? 8 then Raise ValueError
  else
    let beta := kaiser_beta L A in
    t <- divide ((A - 7.95) / 2.285) (pi * width) ;;
    n <- Py.ceil (t + 1) ;;
    Ok (n, beta).

Definition order_estimate_with (Fs width ripple : float)
  : result (Z * float) :=
  w <- divide width (0.5 * Fs) ;;
  kaiserord_with ripple w.

Definition fir_numtaps_with (signal : list float) (Fs width ripple : float)
  : result (Z * float) :=
  ' (numtaps, beta) <- order_estimate_with Fs width ripple ;;
  numtaps <- (if Py.int_gt numtaps (cap signal)
              then Py.int (cap signal) else Ok numtaps) ;;
  Ok (Z.lor numtaps 1, beta).

Definition fir_filter_with (signal : list float) (Fs : float)
  (cutoff : list float) (width ripple : float) : result (list float) :=
  ' (numtaps, beta) <- fir_numtaps_with signal Fs width ripple ;;
  filter_coefs_peak <- firwin L numtaps cutoff beta Fs ;;
  filtfilt L filter_coefs_peak signal.

Definition preprocess_with (x : list float) (Fs : float)
  : result (list float) :=
  d <- detrend L x ;;
  fir_filter_with d Fs [0.4; 3] width ripple.

Definition SQI_with (OD1 OD2 oxy dxy : list float) (Fs : float)
  : result score :=
  if out_of_range OD1 OD2 then Ok (SInt 1)
  else if flat_line L OD1 OD2 then Ok (SInt 1)
  else
    OD1_filt <- preprocess_with OD1 Fs ;;
    OD2_filt <- preprocess_with OD2 Fs ;;
    oxy_filt <- preprocess_with oxy Fs ;;
    dxy_filt <- preprocess_with dxy Fs ;;
    if sumHbratio L oxy_filt dxy_filt <? thr_sumHbratio then Ok (SInt 1)
    else stage_two_three L OD1_filt OD2_filt oxy_filt dxy_filt.

End Scalars.

(** ** An executable library *)

(** Textbook implementations of the array routines, in binary64 arithmetic.
    Sums follow NumPy's pairwise order; the elementary functions are
    truncated series and the least-squares fit is in closed form, so values
    agree with NumPy and SciPy up to rounding, and exactly on signals that
    are zero throughout. *)
Module Reference.

(** Eight running sums over blocks of eight elements. *)
Fixpoint accumulate (fuel : nat) (r a : list float) : list float :=
  match fuel with
  | O => r
  | S fuel' =>
      if (length a <? 8)%nat then r
      else accumulate fuel' (map (fun '(x, y) => x + y) (combine r (firstn 8 a)))
                      (skipn 8 a)
  end.

(** [np.add.reduce] on a contiguous array: a plain loop below eight
    elements, eight accumulators up to 128, halves beyond. *)
Fixpoint pairwise (fuel : nat) (a : list float) : float :=
  let n := length a in
  if (n <? 8)%nat then fold_left add a 0
  else if (n <=? 128)%nat then
    let r := accumulate n (firstn 8 a) (skipn 8 a) in
    let r (i : nat) := nth i r 0 in
    let res := ((r 0%nat + r 1%nat) + (r 2%nat + r 3%nat))
               + ((r 4%nat + r 5%nat) + (r 6%nat + r 7%nat)) in
    fold_left add (skipn (n - n mod 8) a) res
  else
    match fuel with
    | O => 0
    | S fuel' =>
        let n2 := (n / 2 - (n / 2) mod 8)%nat in
        pairwise fuel' (firstn n2 a) + pairwise fuel' (skipn n2 a)
    end.

Definition sum (a : list float) : float := pairwise (length a) a.

(** [np.std]: the root of the mean squared deviation from the mean. *)
Definition std (a : list float) : float :=
  let n := Py.of_nat (length a) in
  let arrmean := sum a / n in
  let x := map (fun v => v - arrmean) a in
  sqrt (sum (map (fun v => v * v) x) / n).

(** The partial sum [t0 + t1 + ...] of a series whose term [k + 1] is
    [step k] times term [k]. *)
Fixpoint series (n : nat) (step : float -> float) (k term acc : float)
  : float :=
  match n with
  | O => acc
  | S n' => series n' step (k + 1) (term * step k) (acc + term)
  end.

Definition ln2 : float := 0.6931471805599453.

Definition log (x : float) : float :=
  if is_nan x then nan
  else if x <? 0 then nan
  else if x =? 0 then neg_infinity
  else if x =? infinity then infinity
  else
    let (m, e) := Z.frexp x in
    let (m, e) := if m <? 0.7071067811865476 then (2 * m, (e - 1)%Z)
                  else (m, e) in
    let z := (m - 1) / (m + 1) in
    let s := series 14 (fun k => z * z * (2 * k + 1) / (2 * k + 3)) 0 z 0 in
    Py.of_Z e * ln2 + 2 * s.

Definition exp (y : float) : float :=
  if is_nan y then nan
  else if 710 <? y then infinity
  else if y <? -746 then 0
  else
    let k := match Py.floor (y / ln2 + 0.5) with Some k => k | None => 0%Z end in
    let r := y - Py.of_Z k * ln2 in
    Z.ldexp (series 22 (fun j => r / (j + 1)) 0 1 0) k.

Definition pow (x y : float) : float := exp (y * log x).

Definition two_pi : float := 2 * pi.

Definition reduce (x : float) : float :=
  match Py.floor (x / two_pi + 0.5) with
  | Some k => x - Py.of_Z k * two_pi
  | None => nan
  end.

Definition sin (x : float) : float :=
  let r := reduce x in
  series 24 (fun k => - (r * r) / ((2 * k + 2) * (2 * k + 3))) 0 r 0.

Definition cos (x : float) : float :=
  let r := reduce x in
  series 24 (fun k => - (r * r) / ((2 * k + 1) * (2 * k + 2))) 0 1 0.

(** [np.sinc]: [sin(pi x) / (pi x)], and 1 at 0. *)
Definition sinc (x : float) : float :=
  if x =? 0 then 1 else sin (pi * x) / (pi * x).

(** The modified Bessel function of order zero, [np.i0]. *)
Definition i0 (x : float) : float :=
  let h := x / 2 in
  series 40 (fun k => h * h / ((k + 1) * (k + 1))) 0 1 0.

Definition indices (n : nat) : list float := map Py.of_nat (seq 0 n).

(** The symmetric Kaiser window on [M] points. *)
Definition kaiser (M : nat) (beta : float) : list float :=
  if (M <=? 1)%nat then repeat 1 M
  else
    let alpha := (Py.of_nat M - 1) / 2 in
    map (fun n => let u := (n - alpha) / alpha in
                  i0 (beta * sqrt (1 - u * u)) / i0 beta) (indices M).

Fixpoint bands (c : list float) : list (float * float) :=
  match c with
  | l :: r :: c' => (l, r) :: bands c'
  | [l] => [(l, 1)]
  | [] => []
  end.

(** The windowed ideal band-pass response, scaled to unit gain at the
    centre of the first pass band. *)
Definition kernel (numtaps : Z) (c : list float) (beta : float)
  : result (list float) :=
  if (numtaps <? 0)%Z then Raise ValueError
  else
    let M := Z.to_nat numtaps in
    let alpha := 0.5 * (Py.of_nat M - 1) in
    let ideal m :=
      fold_left (fun h '(l, r) => h + r * sinc (r * m) - l * sinc (l * m))
                (bands c) 0 in
    let centre := match bands c with
                  | (l, r) :: _ => if l =? 0 then 0
                                   else if r =? 1 then 1 else 0.5 * (l + r)
                  | [] => 0
                  end in
    let win := kaiser M beta in
    let h := map (fun n => ideal (Py.of_nat n - alpha) * nth n win 0)
                 (seq 0 M) in
    let s := sum (map (fun n => nth n h 0
                                * cos (pi * (Py.of_nat n - alpha) * centre))
                      (seq 0 M)) in
    Ok (map (fun v => v / s) h).

(** Least-squares line removed, as [scipy.signal.detrend] does. *)
Definition linear_detrend (x : list float) : result (list float) :=
  let N := length x in
  if (N <=? 1)%nat then Ok (map (fun _ => 0) x)
  else
    let n := Py.of_nat N in
    let tm := sum (indices N) / n in
    let ym := sum x / n in
    let ts := map (fun t => t - tm) (indices N) in
    let sxy := sum (map (fun i => nth i ts 0 * (nth i x 0 - ym)) (seq 0 N)) in
    let sxx := sum (map (fun t => t * t) ts) in
    let b := sxy / sxx in
    Ok (map (fun i => nth i x 0 - ym - b * nth i ts 0) (seq 0 N)).

(** One pass of a transposed direct-form FIR filter with state [z]. *)
Fixpoint shift_state (b z : list float) (u : float) : list float :=
  match b with
  | [] => []
  | bk :: b' => (bk * u + match z with _ :: zk :: _ => zk | _ => 0 end)
                :: shift_state b' (tl z) u
  end.

Fixpoint lfilter (b z x : list float) : list float :=
  match x with
  | [] => []
  | u :: x' =>
      (hd 0 b * u + hd 0 z) :: lfilter b (shift_state (tl b) z u) x'
  end.

(** The state of the filter at rest on a constant input of 1. *)
Fixpoint tails_sum (b : list float) : list float :=
  match b with
  | [] => []
  | _ :: b' => sum b' :: tails_sum b'
  end.

Definition lfilter_zi (b : list float) : list float :=
  removelast (tails_sum b).

(** Forward and backward filtering of the signal, extended at both ends
    by its odd reflection. *)
Definition forward_backward (b x : list float) : result (list float) :=
  let edge := (3 * Nat.max 1 (length b))%nat in
  let N := length x in
  let x0 := hd 0 x in
  let xN := last x 0 in
  let ext :=
    map (fun i => 2 * x0 - nth (edge - i) x 0) (seq 0 edge)
    ++ x
    ++ map (fun i => 2 * xN - nth (N - 2 - i) x 0) (seq 0 edge) in
  let zi := lfilter_zi b in
  let y := lfilter b (map (fun z => z * hd 0 ext) zi) ext in
  let yr := rev y in
  let y2 := rev (lfilter b (map (fun z => z * hd 0 yr) zi) yr) in
  Ok (map (fun i => nth (edge + i) y2 0) (seq 0 N)).

(** The full cross-correlation, lags from [-(N - 1)] to [N - 1]. *)
Definition cross_correlate (a b : list float) : result (list float) :=
  let Na := length a in
  let Nb := length b in
  Ok (map (fun k =>
             sum (map (fun l => if (Nb - 1 <=? l + k)%nat && (l + k - (Nb - 1) <? Na)%nat
                                then nth (l + k - (Nb - 1)) a 0 * nth l b 0
                                else 0)
                      (seq 0 Nb)))
          (seq 0 (Na + Nb - 1))).

End Reference.

(** The reference library; its routines satisfy the length laws. *)
Definition reference : Library.
Proof.
  refine {|
    np_sum := Reference.sum;
    np_std := Reference.std;
    np_log := Reference.log;
    float_pow := Reference.pow;
    detrend := Reference.linear_detrend;
    firwin_kernel := Reference.kernel;
    filtfilt_apply := Reference.forward_backward;
    correlate := Reference.cross_correlate
  |}.
  - unfold Reference.linear_detrend. intros x y.
    destruct (length x <=? 1)%nat; intros H; injection H as <-.
    + apply length_map.
    + now rewrite length_map, length_seq.
  - unfold Reference.kernel. intros n c beta h.
    destruct (n <? 0)%Z eqn:E; [discriminate |].
    intros H; injection H as <-.
    rewrite !length_map, length_seq.
    apply Z2Nat.id. apply Z.ltb_ge in E. exact E.
  - unfold Reference.forward_backward. intros b x y H.
    injection H as <-. now rewrite length_map, length_seq.
Defined.

(** ** Vocabulary of the specification *)

(** The preconditions the specification puts on a call: four sequences of
    one length [N >= 2], a positive sampling rate, finite samples.  The
    program has no such check. *)
Definition valid_input (OD1 OD2 oxy dxy : list float) (Fs : float) : bool :=
  (length OD1 =? length OD2)%nat && (length OD2 =? length oxy)%nat
  && (length oxy =? length dxy)%nat && (2 <=? length OD1)%nat
  && (0 <? Fs) && is_finite Fs
  && forallb is_finite (OD1 ++ OD2 ++ oxy ++ dxy).

(** A score between 1 and 5. *)
Definition in_range (s : score) : bool :=
  match s with
  | SInt n => (1 <=? n)%Z && (n <=? 5)%Z
  | SFloat x => (1 <=? x) && (x <=? 5)
  end.

(** The number a score stands for. *)
Definition score_value (s : score) : float :=
  match s with
  | SInt n => Py.of_Z n
  | SFloat x => x
  end.

(** The clamp of the specification: [x] forced into [[lo, hi]]. *)
Definition clamp_spec (lo hi x : float) : float :=
  if x <? lo then lo else if hi <? x then hi else x.

(** The first gate of stage one as the specification words it: a sample
    of [OD1] or [OD2] strictly below 0.04 or strictly above 2.5, or an
    optical density whose standard deviation is zero. *)
Definition pass_A_fires (L : Library) (OD1 OD2 : list float) : Prop :=
  (exists x, (In x OD1 \/ In x OD2) /\ ((x <? 0.04) = true \/ (2.5 <? x) = true))
  \/ (np_std L OD1 =? 0) = true
  \/ (np_std L OD2 =? 0) = true.

Section Stages.

Variable L : Library.

(** A channel after the preprocessing of lines 73 to 76: the linear
    trend removed, then the band-pass filter from 0.4 Hz to 3 Hz. *)
Definition filtered (x : list float) (Fs : float) (x_filt : list float)
  : Prop :=
  exists d, detrend L x = Ok d
            /\ fir_filter L d Fs [0.4; 3] 0.2 65 = Ok x_filt.

(** The first gate did not fire and the four channels were filtered. *)
Definition preprocessed (OD1 OD2 oxy dxy : list float) (Fs : float)
  (OD1_filt OD2_filt oxy_filt dxy_filt : list float) : Prop :=
  ~ pass_A_fires L OD1 OD2
  /\ filtered OD1 Fs OD1_filt /\ filtered OD2 Fs OD2_filt
  /\ filtered oxy Fs oxy_filt /\ filtered dxy Fs dxy_filt.

(** The feature of the second gate of stage one. *)
Definition hb_ratio (oxy_filt dxy_filt : list float) : float :=
  np_log L (np_sum L (map abs oxy_filt) / np_sum L (map abs dxy_filt)).

(** [d] is the difference of the two autocorrelations, each divided by
    its signal's sum of squares. *)
Definition autocorr_difference (OD1_filt OD2_filt d : list float) : Prop :=
  exists c1 c2,
    correlate L OD1_filt OD1_filt = Ok c1
    /\ correlate L OD2_filt OD2_filt = Ok c2
    /\ Np.sub
         (map (fun v => v / np_sum L (map (fun x => x * x) OD1_filt)) c1)
         (map (fun v => v / np_sum L (map (fun x => x * x) OD2_filt)) c2)
       = Ok d.

(** The regression of stage three before it is forced into range. *)
Definition raw_score (oxy_filt dxy_filt : list float) : float :=
  np_log L (np_std L oxy_filt / np_std L dxy_filt) * 1.795613343002295
  + 0.846108994828045.

End Stages.

(** The sign bit of a number is clear (a NaN has none). *)
Definition sign_clear (x : spec_float) : Prop :=
  match x with
  | S754_nan => True
  | S754_zero s | S754_infinity s | S754_finite s _ _ => s = false
  end.

(** ** A range check by computation *)

(** The largest tap count allowed on [N] samples, [floor (N / 3.5)] with
    its lowest bit set, leaves [filtfilt]'s padding shorter than the
    signal. *)
Definition guard_ok (N : Z) : bool :=
  match Py.floor (of_uint63 (Uint63Axioms.of_Z N) / 3.5) with
  | Some f => (3 * Z.lor f 1 <? N)%Z
  | None => false
  end.

(** [P] holds on the [count] integers from [lo] on. *)
Definition check_from (P : Z -> bool) (lo : Z) (count : positive) : bool :=
  fst (Pos.iter (fun '(b, i) => (b && P i, (i + 1)%Z)) (true, lo) count).

(** Case analysis on the outcome of a step of a [result] computation. *)
Ltac step_bind H :=
  match type of H with
  | bind ?r _ = _ =>
      let E := fresh "E" in
      destruct r eqn:E; simpl in H; [ | try discriminate H ]
  end.

(** ** Concrete signals *)

(** Ten samples at 10 Hz: two optical densities inside the linear range
    with different rhythms, an oxygenated signal three times the
    deoxygenated one, and a channel that is zero throughout. *)
Definition OD1_a : list float := [1; 1.5; 1; 1.5; 1; 1.5; 1; 1.5; 1; 1.5].
Definition OD2_a : list float := [1; 1; 1.5; 1.5; 1; 1; 1.5; 1.5; 1; 1].
Definition oxy_a : list float := [3; -3; 3; -3; 3; -3; 3; -3; 3; -3].
Definition dxy_a : list float := [1; -1; 1; -1; 1; -1; 1; -1; 1; -1].
Definition zeros_a : list float := repeat 0 10.

(** The value of a computation that is known to return. *)
Definition value {A : Type} (r : result (list A)) : list A :=
  match r with
  | Ok a => a
  | Raise _ => []
  end.

Definition detrended (x : list float) : list float :=
  value (detrend reference x).

Definition OD1_f : list float :=
  Eval vm_compute in value (preprocess reference OD1_a 10).
Definition OD2_f : list float :=
  Eval vm_compute in value (preprocess reference OD2_a 10).
Definition oxy_f : list float :=
  Eval vm_compute in value (preprocess reference oxy_a 10).
Definition dxy_f : list float :=
  Eval vm_compute in value (preprocess reference dxy_a 10).
Definition zeros_f : list float :=
  Eval vm_compute in value (preprocess reference zeros_a 10).
Definition acorr_d : list float :=
  Eval vm_compute in
    value (a1 <- autocorr reference OD1_f ;;
           a2 <- autocorr reference OD2_f ;;
           Np.sub a1 a2).

(** Seven samples, the shortest window on which the cap is exceeded. *)
Definition OD1_7 : list float := [1; 1.5; 1; 1.5; 1; 1.5; 1].
Definition OD2_7 : list float := [1; 1; 1.5; 1.5; 1; 1; 1.5].
Definition oxy_7 : list float := [3; -3; 3; -3; 3; -3; 3].
Definition dxy_7 : list float := [1; -1; 1; -1; 1; -1; 1].

(** Twenty samples, the short window the specification names. *)
Definition signal_20 : list float := detrended (OD1_a ++ OD1_a).

(** A number that is not a NaN and whose sign bit is [s]. *)
Definition signed (s : bool) (x : float) : Prop :=
  match Prim2SF x with
  | S754_nan => False
  | S754_zero s' | S754_infinity s' | S754_finite s' _ _ => s' = s
  end.

(** An eleventh sample for the second optical density, and the twenty
    samples filtered. *)
Definition OD2_b : list float := OD2_a ++ [1.5].
Definition OD2_bf : list float :=
  Eval vm_compute in value (preprocess reference OD2_b 10).
Definition filtered_20 : list float :=
  Eval vm_compute in value (fir_filter reference signal_20 10 [0.4; 3] 0.2 65).

(** * Theorems *)

(** ** Facts about binary64 numbers *)

Module FloatFacts.

Lemma round_aux_sign_clear m e l :
  sign_clear (binary_round_aux prec emax false m e l).
Proof.
  unfold binary_round_aux.
  destruct (shr_fexp prec emax m e l) as [mrs' e'].
  destruct (shr_fexp prec emax _ e' loc_Exact) as [mrs'' e''].
  destruct (shr_m mrs''); simpl; trivial.
  now destruct (Z.leb _ _).
Qed.

Lemma of_uint63_sign_clear i : sign_clear (Prim2SF (of_uint63 i)).
Proof.
  rewrite of_uint63_spec. unfold binary_normalize.
  pose proof (Uint63.to_Z_bounded i) as B.
  destruct (Uint63Axioms.to_Z i) as [|p|p]; [reflexivity | | lia].
  unfold binary_round.
  destruct (shl_align p 0 _) as [mz ez].
  apply round_aux_sign_clear.
Qed.

Lemma div_sign_clear x y :
  sign_clear (Prim2SF x) -> sign_clear (Prim2SF y) -> sign_clear (Prim2SF (x / y)).
Proof.
  rewrite div_spec. unfold SF64div, SFdiv.
  destruct (Prim2SF x) as [sx|sx| |sx mx ex], (Prim2SF y) as [sy|sy| |sy my ey];
    simpl; intros Hx Hy; try subst sx; try subst sy; simpl; trivial.
  destruct (SFdiv_core_binary prec emax (Z.pos mx) ex (Z.pos my) ey)
    as [[mz ez] lz].
  apply round_aux_sign_clear.
Qed.

(** On a number whose sign bit is clear, [int] rounds as [math.floor]. *)
Lemma trunc_floor x : sign_clear (Prim2SF x) -> Py.trunc x = Py.floor x.
Proof.
  unfold Py.trunc, Py.floor.
  destruct (Prim2SF x) as [s|s| |s m e]; simpl; trivial.
  intros ->. now destruct (Py.magnitude m e).
Qed.

Lemma is_nan_spec x : is_nan x = true <-> Prim2SF x = S754_nan.
Proof.
  unfold is_nan. rewrite eqb_spec. unfold SFeqb, SFcompare.
  destruct (Prim2SF x) as [s|s| |s m e]; simpl.
  - split; discriminate.
  - destruct s; split; discriminate.
  - split; reflexivity.
  - rewrite Z.compare_refl, Pos.compare_cont_refl.
    destruct s; split; discriminate.
Qed.

(** Every comparison with a NaN is false. *)
Lemma nan_ltb_l x y : is_nan x = true -> (x <? y) = false.
Proof.
  rewrite is_nan_spec, ltb_spec. intros ->. reflexivity.
Qed.

Lemma nan_ltb_r x y : is_nan y = true -> (x <? y) = false.
Proof.
  rewrite is_nan_spec, ltb_spec. intros ->.
  unfold SFltb, SFcompare. now destruct (Prim2SF x).
Qed.

Lemma nan_leb_r x y : is_nan y = true -> (x <=? y) = false.
Proof.
  rewrite is_nan_spec, leb_spec. intros ->.
  unfold SFleb, SFcompare. now destruct (Prim2SF x).
Qed.

(** The order is total off the NaNs. *)
Lemma not_ltb_leb x y :
  is_nan x = false -> is_nan y = false -> (x <? y) = false -> (y <=? x) = true.
Proof.
  intros Hx Hy.
  assert (Nx : Prim2SF x <> S754_nan)
    by (intros E; apply is_nan_spec in E; congruence).
  assert (Ny : Prim2SF y <> S754_nan)
    by (intros E; apply is_nan_spec in E; congruence).
  rewrite ltb_spec, leb_spec. unfold SFltb, SFleb, SFcompare.
  destruct (Prim2SF x) as [sx|sx| |sx mx ex], (Prim2SF y) as [sy|sy| |sy my ey];
    try congruence; try (destruct sx, sy; simpl; congruence);
    try (destruct sx; simpl; congruence);
    try (destruct sy; simpl; congruence).
  assert (A : Pos.compare_cont Eq my mx = CompOpp (Pos.compare_cont Eq mx my))
    by (symmetry; apply (Pos.compare_cont_antisym mx my Eq)).
  destruct sx, sy; simpl; try congruence;
    rewrite (Z.compare_antisym ex ey), A;
    destruct (ex ?= ey)%Z; simpl; try congruence;
    destruct (Pos.compare_cont Eq mx my); simpl; congruence.
Qed.

End FloatFacts.

(** ** Rounding

    Upper bounds, in the real numbers, on what the conversion of an
    integer to a float and the division of two floats return: each rounds
    a non-negative value to nearest, so moves it up by at most one unit in
    the last place.  They give a bound on [int(n / 3.5)] for every
    length [n]. *)
Module RoundingFacts.
Import Reals Lra.
Local Open Scope R_scope.

Lemma two_pos e : 0 < powerRZ 2 e.
Proof. apply powerRZ_lt. lra. Qed.

Lemma two_add a b : powerRZ 2 (a + b) = powerRZ 2 a * powerRZ 2 b.
Proof. apply powerRZ_add. lra. Qed.

Lemma two_IZR k : (0 <= k)%Z -> powerRZ 2 k = IZR (2 ^ k).
Proof.
  destruct k as [| p | p]; intros H; [simpl; lra | | lia].
  symmetry. exact (Zpower_pos_powerRZ 2 p).
Qed.

Lemma two_le a b : (a <= b)%Z -> powerRZ 2 a <= powerRZ 2 b.
Proof.
  intros H. replace b with (a + (b - a))%Z by lia.
  rewrite two_add, (two_IZR (b - a)) by lia.
  assert (P : (1 <= 2 ^ (b - a))%Z)
    by (apply (Z.pow_le_mono_r 2 0); lia).
  apply IZR_le in P. pose proof (two_pos a). nra.
Qed.

Lemma two_lt_inv a b : powerRZ 2 a < powerRZ 2 b -> (a < b)%Z.
Proof.
  intros H. destruct (Z_lt_le_dec a b) as [L | G]; trivial.
  apply two_le in G. lra.
Qed.

(** ** Digits *)

Lemma digits2_size p : digits2_pos p = Pos.size p.
Proof. induction p; simpl; congruence. Qed.

Lemma digits_lower m : (0 < m)%Z -> powerRZ 2 (Zdigits2 m - 1) <= IZR m.
Proof.
  destruct m as [| p | p]; intros H; try lia.
  simpl Zdigits2. rewrite digits2_size.
  rewrite two_IZR by lia. apply IZR_le.
  pose proof (Pos.size_le p) as S.
  apply Pos2Z.pos_le_pos in S.
  rewrite Pos2Z.inj_pow in S.
  replace (Z.pos (Pos.size p)) with (Z.succ (Z.pos (Pos.size p) - 1)) in S by lia.
  rewrite Z.pow_succ_r in S by lia. lia.
Qed.

(** A positive number below [2 ^ k] has at most [k] digits. *)
Lemma digits_upper m e k :
  (0 < m)%Z -> IZR m * powerRZ 2 e < powerRZ 2 k -> (Zdigits2 m + e <= k)%Z.
Proof.
  intros P H. pose proof (digits_lower m P) as D.
  assert (L : powerRZ 2 (Zdigits2 m - 1 + e) < powerRZ 2 k).
  { rewrite two_add. pose proof (two_pos e). nra. }
  apply two_lt_inv in L. lia.
Qed.

Lemma fexp_small k : (k <= 63)%Z -> (fexp prec emax k <= 10)%Z.
Proof. unfold fexp, emin, prec, emax. lia. Qed.

(** ** Shifts *)

Lemma shr_1_half mrs :
  (0 <= shr_m mrs)%Z -> shr_m (shr_1 mrs) = (shr_m mrs / 2)%Z.
Proof.
  destruct mrs as [m r s]. simpl.
  destruct m as [| [p | p |] | p]; simpl; intros H; try lia; try reflexivity.
  - apply (Z.div_unique (Z.pos p~1) 2 (Z.pos p) 1); lia.
  - apply (Z.div_unique (Z.pos p~0) 2 (Z.pos p) 0); lia.
Qed.

Lemma iter_shr_1_div p : forall mrs,
  (0 <= shr_m mrs)%Z ->
  shr_m (SpecFloat.iter_pos shr_1 p mrs) = (shr_m mrs / 2 ^ Z.pos p)%Z.
Proof.
  assert (N : forall a b, (0 <= a)%Z -> (0 < b)%Z -> (0 <= a / b)%Z)
    by (intros; apply Z.div_pos; lia).
  induction p as [p IH | p IH |]; intros mrs H; simpl SpecFloat.iter_pos.
  - rewrite !IH, shr_1_half; trivial.
    + rewrite !Z.div_div by lia. f_equal.
      replace (Z.pos p~1) with (Z.pos p + Z.pos p + 1)%Z by lia.
      rewrite !Z.pow_add_r by lia. change (2 ^ 1)%Z with 2%Z. ring.
    + rewrite shr_1_half by trivial. apply N; lia.
    + rewrite IH, shr_1_half; trivial.
      * apply N; [apply N |]; lia.
      * rewrite shr_1_half by trivial. apply N; lia.
  - rewrite !IH; trivial.
    + rewrite !Z.div_div by lia. f_equal.
      replace (Z.pos p~0) with (Z.pos p + Z.pos p)%Z by lia.
      rewrite !Z.pow_add_r by lia. ring.
    + rewrite IH by trivial. apply N; lia.
  - rewrite shr_1_half by trivial. reflexivity.
Qed.

Lemma shr_fexp_bound m e l mrs e1 :
  (0 <= m)%Z ->
  shr_fexp prec emax m e l = (mrs, e1) ->
  (0 <= shr_m mrs)%Z /\
  e1 = Z.max e (fexp prec emax (Zdigits2 m + e)) /\
  IZR (shr_m mrs) * powerRZ 2 e1 <= IZR m * powerRZ 2 e.
Proof.
  intros P. unfold shr_fexp, shr.
  assert (R : shr_m (shr_record_of_loc m l) = m)
    by (destruct l as [| []]; reflexivity).
  destruct (_ - e)%Z as [| p | p] eqn:N; intros E; inversion E; subst; clear E.
  - rewrite R. repeat split; [exact P | lia | lra].
  - rewrite iter_shr_1_div, R by (rewrite R; exact P).
    split; [apply Z.div_pos; lia |]. split; [lia |].
    rewrite two_add, (two_IZR (Z.pos p)) by lia.
    assert (X : (0 < 2 ^ Z.pos p)%Z) by (apply Z.pow_pos_nonneg; lia).
    pose proof (Z.mul_div_le m _ X) as D.
    apply IZR_le in D. rewrite mult_IZR in D.
    pose proof (two_pos e). nra.
  - rewrite R. repeat split; [exact P | lia | lra].
Qed.

Lemma round_nearest_even_bound m l :
  (m <= round_nearest_even m l <= m + 1)%Z.
Proof.
  unfold round_nearest_even. destruct l as [| []]; try lia.
  destruct (Z.even m); lia.
Qed.

(** ** Rounding *)

(** Rounding to nearest moves a non-negative number up by at most one
    unit in the last place kept, and stays finite below [2 ^ 971]. *)
Lemma round_aux_bound m e l B :
  (0 <= m)%Z ->
  IZR m * powerRZ 2 e
    + powerRZ 2 (Z.max e (fexp prec emax (Zdigits2 m + e))) <= B ->
  B <= powerRZ 2 971 ->
  match binary_round_aux prec emax false m e l with
  | S754_zero _ => True
  | S754_finite s m' e' => s = false /\ IZR (Z.pos m') * powerRZ 2 e' <= B
  | _ => False
  end.
Proof.
  intros P HB HM. unfold binary_round_aux.
  destruct (shr_fexp prec emax m e l) as [mrs1 e1] eqn:S1.
  apply shr_fexp_bound in S1 as (P1 & E1 & V1); trivial.
  pose proof (round_nearest_even_bound (shr_m mrs1) (loc_of_shr_record mrs1))
    as [R1 R2].
  set (m' := round_nearest_even _ _) in *.
  destruct (shr_fexp prec emax m' e1 loc_Exact) as [mrs2 e2] eqn:S2.
  apply shr_fexp_bound in S2 as (P2 & E2 & V2); [| lia].
  rewrite <- E1 in HB.
  apply IZR_le in R2. rewrite plus_IZR in R2.
  pose proof (two_pos e1) as T1.
  assert (V : IZR (shr_m mrs2) * powerRZ 2 e2 <= B) by nra.
  destruct (shr_m mrs2) as [| q | q]; [trivial | | lia].
  destruct (Z.leb_spec e2 (emax - prec)) as [L | G]; [now split |].
  unfold emax, prec in G.
  assert (T : powerRZ 2 972 <= powerRZ 2 e2) by (apply two_le; lia).
  replace 972%Z with (1 + 971)%Z in T by reflexivity.
  rewrite two_add in T. change (powerRZ 2 1) with (2 * 1) in T.
  assert (Q : 1 <= IZR (Z.pos q)) by (apply IZR_le; lia).
  pose proof (two_pos 971). pose proof (two_pos e2). nra.
Qed.

Lemma two_10 : powerRZ 2 10 = 1024.
Proof. rewrite two_IZR by lia. reflexivity. Qed.

Lemma two_63 : powerRZ 2 63 = 9223372036854775808.
Proof. rewrite two_IZR by lia. reflexivity. Qed.

Lemma two_64 : powerRZ 2 64 = 18446744073709551616.
Proof. rewrite two_IZR by lia. reflexivity. Qed.

Lemma two_small k : (k <= 10)%Z -> powerRZ 2 k <= 1024.
Proof. intros H. rewrite <- two_10. now apply two_le. Qed.

Lemma two_64_971 : powerRZ 2 64 <= powerRZ 2 971.
Proof. apply two_le. lia. Qed.

Lemma iter_xO p d : Z.pos (Pos.iter xO p d) = (Z.pos p * 2 ^ Z.pos d)%Z.
Proof.
  induction d as [| d IH] using Pos.peano_ind.
  - simpl. lia.
  - rewrite Pos.iter_succ, Pos2Z.inj_xO, IH, Pos2Z.inj_succ, Z.pow_succ_r by lia.
    ring.
Qed.

(** Below [2 ^ 63] the unit in the last place is at most [2 ^ 10]. *)
Lemma round_bound m e l V :
  (0 <= m)%Z -> (e <= 10)%Z ->
  IZR m * powerRZ 2 e <= V -> V < powerRZ 2 63 ->
  match binary_round_aux prec emax false m e l with
  | S754_zero _ => True
  | S754_finite s m' e' =>
      s = false /\ IZR (Z.pos m') * powerRZ 2 e' <= V + 1024
  | _ => False
  end.
Proof.
  intros P E H U. apply round_aux_bound; trivial.
  - assert (F : (fexp prec emax (Zdigits2 m + e) <= 10)%Z).
    { apply fexp_small. destruct (Z.eq_dec m 0) as [-> | N]; [simpl; lia |].
      apply digits_upper; [lia | lra]. }
    pose proof (two_small (Z.max e (fexp prec emax (Zdigits2 m + e)))
                  ltac:(lia)).
    lra.
  - pose proof two_64_971. rewrite two_63 in U. rewrite two_64 in *. lra.
Qed.

(** The float of an unsigned integer: [float(n)] is at most [n + 2 ^ 10]. *)
Lemma of_uint63_bound N :
  (0 <= N)%Z ->
  exists N', (0 <= N' <= N)%Z /\ (N' < 2 ^ 63)%Z /\
  match Prim2SF (of_uint63 (Uint63Axioms.of_Z N)) with
  | S754_zero _ => True
  | S754_finite s m e =>
      s = false /\ IZR (Z.pos m) * powerRZ 2 e <= IZR N' + 1024
  | _ => False
  end.
Proof.
  intros P. rewrite of_uint63_spec.
  pose proof (Uint63.of_Z_spec N) as E.
  change (Uint63Axioms.to_Z (Uint63Axioms.of_Z N) = (N mod 2 ^ 63)%Z) in E.
  rewrite E.
  pose proof (Z.mod_pos_bound N (2 ^ 63) ltac:(lia)) as [M1 M2].
  pose proof (Z.mod_le N (2 ^ 63) P ltac:(lia)) as M3.
  exists (N mod 2 ^ 63)%Z. split; [lia |]. split; [exact M2 |].
  destruct (N mod 2 ^ 63)%Z as [| p | p]; [exact I | | lia].
  assert (U : IZR (Z.pos p) < powerRZ 2 63)
    by (rewrite two_IZR by lia; now apply IZR_lt).
  unfold binary_normalize, binary_round, shl_align.
  destruct (_ - 0)%Z as [| d | d] eqn:D.
  - apply round_bound; trivial; try lia. simpl; lra.
  - apply round_bound; trivial; try lia. simpl; lra.
  - apply round_bound; trivial; try lia.
    rewrite iter_xO, mult_IZR.
    replace (fexp prec emax (Z.pos (digits2_pos p) + 0)) with (- Z.pos d)%Z
      by lia.
    rewrite <- two_IZR by lia.
    pose proof (two_add (Z.pos d) (- Z.pos d)) as A.
    rewrite Z.add_opp_diag_r in A. simpl (powerRZ 2 0) in A.
    rewrite Rmult_assoc, <- A. lra.
Qed.

(** ** Division *)

Lemma div_core_bound m1 e1 m2 e2 q e' l :
  (0 < m1)%Z -> (0 < m2)%Z ->
  SFdiv_core_binary prec emax m1 e1 m2 e2 = (q, e', l) ->
  (0 <= q)%Z /\
  (e' <= fexp prec emax (Zdigits2 m1 + e1 - (Zdigits2 m2 + e2)))%Z /\
  IZR q * powerRZ 2 e' * (IZR m2 * powerRZ 2 e2) <= IZR m1 * powerRZ 2 e1.
Proof.
  intros P1 P2. unfold SFdiv_core_binary.
  set (e0 := Z.min _ _). set (s := (e1 - e2 - e0)%Z).
  set (m' := match s with Z0 => m1 | Z.pos _ => Z.shiftl m1 s | Z.neg _ => 0%Z end).
  assert (S : (0 <= s)%Z) by lia.
  assert (M : m' = (m1 * 2 ^ s)%Z).
  { unfold m'. destruct s as [| p | p] eqn:Es; [simpl; lia | | lia].
    apply Z.shiftl_mul_pow2. lia. }
  destruct (Z.div_eucl m' m2) as [q0 r] eqn:DE.
  intros E. inversion E; subst q0 e' l; clear E.
  assert (Q : q = (m' / m2)%Z) by (unfold Z.div; now rewrite DE).
  assert (X : (0 < 2 ^ s)%Z) by (apply Z.pow_pos_nonneg; lia).
  split; [rewrite Q; apply Z.div_pos; nia |].
  split; [unfold e0; lia |].
  pose proof (Z.mul_div_le m' m2 P2) as D. rewrite <- Q, M in D.
  apply IZR_le in D. rewrite !mult_IZR, <- two_IZR in D by lia.
  replace e1 with (s + (e2 + e0))%Z by (unfold s; lia).
  rewrite !two_add.
  pose proof (two_pos e2). pose proof (two_pos e0).
  assert (T : 0 < powerRZ 2 e2 * powerRZ 2 e0) by nra.
  apply (Rmult_le_compat_r _ _ _ (Rlt_le _ _ T)) in D. nra.
Qed.

Lemma SF_3_5 : Prim2SF 3.5%float = S754_finite false 7881299347898368 (-51).
Proof. reflexivity. Qed.

Lemma div_3_5_bound x V :
  match Prim2SF x with
  | S754_zero _ => True
  | S754_finite s m e => s = false /\ IZR (Z.pos m) * powerRZ 2 e <= V
  | _ => False
  end ->
  V < powerRZ 2 64 ->
  match Prim2SF (x / 3.5)%float with
  | S754_zero _ => True
  | S754_finite s m e =>
      s = false /\ IZR (Z.pos m) * powerRZ 2 e <= V / 3.5 + 1024
  | _ => False
  end.
Proof.
  intros H U. rewrite div_spec, SF_3_5. unfold SF64div, SFdiv.
  destruct (Prim2SF x) as [s | s | | s m e]; try contradiction; [exact I |].
  destruct H as [-> H].
  destruct (SFdiv_core_binary prec emax (Z.pos m) e 7881299347898368 (-51))
    as [[q e'] l] eqn:C.
  apply div_core_bound in C as (Q & E & D); try lia.
  simpl xorb.
  assert (Y : IZR 7881299347898368 * powerRZ 2 (-51) = 3.5).
  { pose proof (two_add 51 (-51)) as A. simpl (51 + -51)%Z in A.
    rewrite (two_IZR 51) in A by lia. simpl (powerRZ 2 0) in A.
    change (2 ^ 51)%Z with 2251799813685248%Z in A.
    set (t := powerRZ 2 (-51)) in *. lra. }
  rewrite Y in D.
  assert (D1 : (Zdigits2 (Z.pos m) + e <= 64)%Z)
    by (apply digits_upper; [lia | lra]).
  replace (Zdigits2 7881299347898368) with 53%Z in E by reflexivity.
  pose proof (fexp_small (Zdigits2 (Z.pos m) + e - (53 + -51)) ltac:(lia)).
  set (t := IZR q * powerRZ 2 e') in *.
  rewrite two_64 in U.
  apply round_bound; trivial; try lia; try (fold t); try rewrite two_63; lra.
Qed.

(** [math.floor] of a bounded non-negative float. *)
Lemma floor_bound x V :
  match Prim2SF x with
  | S754_zero _ => True
  | S754_finite s m e => s = false /\ IZR (Z.pos m) * powerRZ 2 e <= V
  | _ => False
  end ->
  0 <= V ->
  exists f, Py.floor x = Some f /\ (0 <= f)%Z /\ IZR f <= V.
Proof.
  intros H P. unfold Py.floor, Py.magnitude.
  destruct (Prim2SF x) as [s | s | | s m e]; try contradiction.
  - exists 0%Z. repeat split; [lia | exact P].
  - destruct H as [-> H].
    destruct (Z.leb_spec 0 e) as [L | G].
    + exists (Z.pos m * 2 ^ e)%Z. split; [reflexivity |].
      split; [apply Z.mul_nonneg_nonneg; [lia | apply Z.pow_nonneg; lia] |].
      rewrite mult_IZR, <- two_IZR by lia. exact H.
    + exists (Z.pos m / 2 ^ (- e))%Z. split; [reflexivity |].
      assert (X : (0 < 2 ^ (- e))%Z) by (apply Z.pow_pos_nonneg; lia).
      split; [apply Z.div_pos; lia |].
      pose proof (Z.mul_div_le (Z.pos m) _ X) as D.
      apply IZR_le in D. rewrite mult_IZR, <- two_IZR in D by lia.
      pose proof (two_add e (- e)) as A.
      rewrite Z.add_opp_diag_r in A. simpl (powerRZ 2 0) in A.
      pose proof (two_pos e). pose proof (two_pos (- e)).
      set (a := powerRZ 2 e) in *. set (b := powerRZ 2 (- e)) in *.
      set (F := IZR (Z.pos m / 2 ^ (- e))) in *.
      assert (F * (b * a) <= IZR (Z.pos m) * a) by nra.
      nra.
Qed.

(** [int(n / 3.5)] exists, and is at most [(n + 1024) / 3.5 + 1024]. *)
Lemma floor_cap_bound N :
  (0 <= N)%Z ->
  exists f, Py.floor (of_uint63 (Uint63Axioms.of_Z N) / 3.5)%float = Some f /\
            (0 <= f)%Z /\ (7 * f <= 2 * N + 9216)%Z.
Proof.
  intros H.
  destruct (of_uint63_bound N H) as (N' & B1 & B2 & X).
  assert (U : IZR N' + 1024 < powerRZ 2 64).
  { rewrite two_64. apply IZR_lt in B2.
    change (2 ^ 63)%Z with 9223372036854775808%Z in B2. lra. }
  pose proof (div_3_5_bound _ _ X U) as C.
  assert (P0 : 0 <= IZR N') by (apply IZR_le; lia).
  assert (P : 0 <= (IZR N' + 1024) / 3.5 + 1024) by lra.
  destruct (floor_bound _ _ C P) as (f & E & F0 & F).
  exists f. split; [exact E |]. split; [exact F0 |].
  apply le_IZR. rewrite plus_IZR, !mult_IZR.
  assert (IZR N' <= IZR N) by (apply IZR_le; lia).
  lra.
Qed.

End RoundingFacts.

Lemma check_from_spec P lo count :
  check_from P lo count = true ->
  forall i, (lo <= i < lo + Z.pos count)%Z -> P i = true.
Proof.
  unfold check_from.
  set (step := fun '(b, i) => (b && P i, (i + 1)%Z)).
  assert (I : forall n,
             snd (Pos.iter step (true, lo) n) = (lo + Z.pos n)%Z /\
             (fst (Pos.iter step (true, lo) n) = true ->
              forall i, (lo <= i < lo + Z.pos n)%Z -> P i = true)).
  { induction n as [| n IH] using Pos.peano_ind.
    - simpl. split; [reflexivity |].
      intros H i Hi.
      replace i with lo by lia. exact H.
    - rewrite Pos.iter_succ.
      destruct (Pos.iter step (true, lo) n) as [b j].
      simpl in *. destruct IH as [-> IH]. split; [lia |].
      intros H i Hi. apply andb_true_iff in H as [Hb Hj].
      destruct (Z.eq_dec i (lo + Z.pos n)) as [-> | Ni]; trivial.
      apply IH; trivial. lia. }
  intros H. exact (proj2 (I count) H).
Qed.

Lemma guard_ok_range : check_from guard_ok 22 32746 = true.
Proof. vm_compute. reflexivity. Qed.

(** ** Properties of the program *)

Section Properties.

Variable L : Library.

Lemma pass_A_fires_iff OD1 OD2 :
  pass_A_fires L OD1 OD2 <->
  out_of_range OD1 OD2 || flat_line L OD1 OD2 = true.
Proof.
  unfold pass_A_fires, out_of_range, flat_line, Np.any_lt, Np.any_gt,
    thrLow_intensity, thrUp_intensity.
  rewrite !orb_true_iff, !existsb_exists. split.
  - intros [(x & [Hin | Hin] & [Hx | Hx]) | [H | H]]; eauto 8.
  - intros [[[[(x & Hin & Hx) | (x & Hin & Hx)] | (x & Hin & Hx)]
            | (x & Hin & Hx)] | [H | H]]; eauto 8.
Qed.

Lemma SQI_pass_A OD1 OD2 oxy dxy Fs :
  out_of_range OD1 OD2 || flat_line L OD1 OD2 = true ->
  SQI L OD1 OD2 oxy dxy Fs = Ok (SInt 1).
Proof.
  unfold SQI. intros H.
  destruct (out_of_range OD1 OD2); [reflexivity |].
  simpl in H. now rewrite H.
Qed.

Lemma lor_1_odd n : Z.odd (Z.lor n 1) = true.
Proof.
  rewrite <- Z.bit0_odd, Z.lor_spec. apply orb_true_r.
Qed.

Lemma lor_1_cases n : Z.lor n 1 = (if Z.odd n then n else n + 1)%Z.
Proof.
  assert (B : forall i, (0 <= i)%Z -> i <> 0%Z -> Z.testbit 1 i = false).
  { intros i Hi Ni. apply Z.bits_above_log2; simpl; lia. }
  destruct (Z.odd n) eqn:O.
  - apply Z.bits_inj'. intros i Hi. rewrite Z.lor_spec.
    destruct (Z.eq_dec i 0) as [-> | Ni].
    + rewrite Z.bit0_odd, O. reflexivity.
    + rewrite (B i Hi Ni). apply orb_false_r.
  - assert (H : Z.land n 1 = 0%Z).
    { apply Z.bits_inj'. intros i Hi. rewrite Z.land_spec, Z.bits_0.
      destruct (Z.eq_dec i 0) as [-> | Ni].
      + rewrite Z.bit0_odd, O. reflexivity.
      + rewrite (B i Hi Ni). apply andb_false_r. }
    now rewrite <- (Z.lxor_lor _ _ H), <- (Z.add_nocarry_lxor _ _ H).
Qed.

Lemma lor_1_mono m f : (m <= f)%Z -> (Z.lor m 1 <= Z.lor f 1)%Z.
Proof.
  intros H. rewrite !lor_1_cases.
  destruct (Z.odd m) eqn:Om, (Z.odd f) eqn:Of; try lia.
  destruct (Z.eq_dec m f) as [-> | N]; [congruence | lia].
Qed.

(** *** The lengths on which the cap keeps the padding short *)

(** From 32768 samples on, by the bound on [int(n / 3.5)]. *)
Lemma guard_ok_large N : (32768 <= N)%Z -> guard_ok N = true.
Proof.
  intros H. unfold guard_ok.
  destruct (RoundingFacts.floor_cap_bound N ltac:(lia)) as (f & -> & F0 & F).
  apply Z.ltb_lt. rewrite lor_1_cases. destruct (Z.odd f); lia.
Qed.

(** Three times the capped tap count is below the length on every length
    from 4 on other than 7, 8, 9, 14, 15 and 21, and on no other. *)
Lemma guard_ok_iff N :
  (0 <= N)%Z ->
  guard_ok N = true <-> (4 <= N)%Z /\ ~ In N [7; 8; 9; 14; 15; 21]%Z.
Proof.
  intros P. simpl In.
  destruct (Z_lt_le_dec N 22) as [S | G].
  - assert (C : In N [0; 1; 2; 3; 4; 5; 6; 7; 8; 9; 10; 11; 12; 13; 14; 15;
                      16; 17; 18; 19; 20; 21]%Z) by (simpl; lia).
    simpl in C.
    repeat (destruct C as [<- | C];
            [destruct (guard_ok _) eqn:E; vm_compute in E; try discriminate E;
             (split; [intros T; try discriminate T; lia | intros T; lia]) |]).
    contradiction.
  - split; [lia |]. intros _.
    destruct (Z_lt_le_dec N 32768) as [S | B].
    + apply (check_from_spec guard_ok 22 32746 guard_ok_range). lia.
    + now apply guard_ok_large.
Qed.

(** *** The tap count of [fir_filter] *)

(** The tap count is the estimate or the truncated cap, with its lowest
    bit set. *)
Lemma fir_numtaps_cases signal Fs w r n beta :
  fir_numtaps L signal Fs w r = Ok (n, beta) ->
  exists est m,
    order_estimate L Fs w r = Ok (est, beta) /\ n = Z.lor m 1 /\
    ((Py.int_gt est (cap signal) = false /\ m = est)
     \/ (Py.int_gt est (cap signal) = true /\ Py.int (cap signal) = Ok m)).
Proof.
  unfold fir_numtaps. intros H.
  step_bind H. destruct a as [est b].
  destruct (Py.int_gt est (cap signal)) eqn:G; step_bind H;
    injection H as <- <-; exists est, a; eauto 6.
  simpl in E0. injection E0 as <-. eauto 6.
Qed.

Lemma cap_sign_clear signal : sign_clear (Prim2SF (cap signal)).
Proof.
  unfold cap, Py.of_nat. apply FloatFacts.div_sign_clear.
  - apply FloatFacts.of_uint63_sign_clear.
  - reflexivity.
Qed.

(** [int(len(signal) / 3.5)] raises on no signal, and is the floor of the
    cap. *)
Lemma int_cap signal :
  exists f, Py.floor (cap signal) = Some f /\ Py.int (cap signal) = Ok f
            /\ (0 <= f)%Z.
Proof.
  destruct (RoundingFacts.floor_cap_bound (Z.of_nat (length signal))
              ltac:(lia)) as (f & E & P & _).
  fold (Py.of_nat (length signal)) in E. fold (cap signal) in E.
  exists f. split; [exact E |]. split; [| exact P].
  unfold Py.int, Py.to_int.
  now rewrite FloatFacts.trunc_floor, E by apply cap_sign_clear.
Qed.

Lemma int_gt_mono n n' x :
  (n' <= n)%Z -> Py.int_gt n x = false -> Py.int_gt n' x = false.
Proof.
  unfold Py.int_gt. destruct (Py.floor x); trivial.
  rewrite !Z.ltb_ge. lia.
Qed.

(** The largest tap count the cap lets through: the floor of the cap
    with its lowest bit set. *)
Lemma fir_numtaps_bound signal Fs w r n beta :
  fir_numtaps L signal Fs w r = Ok (n, beta) ->
  Z.odd n = true /\
  forall f, Py.floor (cap signal) = Some f -> (n <= Z.lor f 1)%Z.
Proof.
  intros H. destruct (fir_numtaps_cases _ _ _ _ _ _ H)
    as (est & m & _ & -> & C).
  split; [apply lor_1_odd |].
  intros f F. apply lor_1_mono.
  destruct C as [[G ->] | [_ I]].
  - unfold Py.int_gt in G. rewrite F in G. apply Z.ltb_ge in G. exact G.
  - unfold Py.int, Py.to_int in I.
    rewrite (FloatFacts.trunc_floor _ (cap_sign_clear signal)), F in I.
    injection I as <-. lia.
Qed.

(** C4 (amended): the tap count [fir_filter] hands to [firwin] is odd, and
    it exceeds [len(signal) / 3.5] by at most one: setting the lowest bit
    comes after the cap, so [numtaps - 1] never exceeds the cap while
    [numtaps] itself may. *)
Theorem fir_numtaps_odd_within_one_of_cap signal Fs w r n beta :
  fir_numtaps L signal Fs w r = Ok (n, beta) ->
  Z.odd n = true /\ Py.int_gt (n - 1) (cap signal) = false.
Proof.
  intros H. destruct (fir_numtaps_cases _ _ _ _ _ _ H)
    as (est & m & _ & -> & C).
  split; [apply lor_1_odd |].
  assert (B : (Z.lor m 1 - 1 <= m)%Z)
    by (rewrite lor_1_cases; destruct (Z.odd m); lia).
  destruct C as [[G ->] | [_ I]].
  - exact (int_gt_mono _ _ _ B G).
  - unfold Py.int, Py.to_int in I.
    rewrite (FloatFacts.trunc_floor _ (cap_sign_clear signal)) in I.
    unfold Py.int_gt. destruct (Py.floor (cap signal));
      [| destruct (is_nan _); discriminate I].
    injection I as <-. apply Z.ltb_ge. exact B.
Qed.

(** C5 (amended): the window parameter [beta] is a function of the ripple
    alone, the same at every sampling rate and for every signal; the
    estimated order is what [kaiserord] returns for the ripple and the
    transition width [width / (0.5 * Fs)], so it depends on the sampling
    rate through that quotient and on nothing else. *)
Theorem order_estimate_depends_on_rate Fs1 Fs2 w r n1 b1 n2 b2 :
  order_estimate L Fs1 w r = Ok (n1, b1) ->
  order_estimate L Fs2 w r = Ok (n2, b2) ->
  b1 = kaiser_beta L (abs r) /\ b2 = b1 /\
  kaiserord L r (w / (0.5 * Fs1)) = Ok (n1, b1) /\
  (w / (0.5 * Fs1) = w / (0.5 * Fs2) -> n2 = n1).
Proof.
  assert (K : forall Fs n b, order_estimate L Fs w r = Ok (n, b) ->
              kaiserord L r (w / (0.5 * Fs)) = Ok (n, b)).
  { unfold order_estimate, Py.div. intros Fs n b H.
    destruct (0.5 * Fs =? 0); [discriminate H | exact H]. }
  assert (B : forall x n b, kaiserord L r x = Ok (n, b) ->
              b = kaiser_beta L (abs r)).
  { unfold kaiserord. intros x n b H.
    destruct (abs r <? 8); [discriminate H |].
    do 2 step_bind H. now injection H as _ <-. }
  intros H1 H2. apply K in H1, H2.
  repeat split; trivial.
  - exact (B _ _ _ H1).
  - rewrite (B _ _ _ H1). exact (B _ _ _ H2).
  - intros E. rewrite E in H1. congruence.
Qed.

(** *** The length check of zero-phase filtering *)

Lemma firwin_length n c beta fs h :
  firwin L n c beta fs = Ok h -> Z.of_nat (length h) = n.
Proof.
  unfold firwin.
  repeat match goal with
         | |- (if ?b then _ else _) = _ -> _ => destruct b; [discriminate |]
         end.
  apply firwin_kernel_length.
Qed.



(** X14: on the lengths C3 leaves out the cap does not keep the padding
    short.  When the estimate of [kaiserord] is above the cap, the tap
    count is the truncated cap with its lowest bit set, three times it
    reaches the length of the signal, and [fir_filter] raises: whatever
    [firwin] raises, or [ValueError] from the length check of
    [filtfilt]. *)
Theorem capped_length_check_fails signal Fs w r cutoff est beta :
  (length signal < 4)%nat \/ In (length signal) [7; 8; 9; 14; 15; 21]%nat ->
  order_estimate L Fs w r = Ok (est, beta) ->
  Py.int_gt est (cap signal) = true ->
  exists n,
    fir_numtaps L signal Fs w r = Ok (n, beta)
    /\ (Z.of_nat (length signal) <= 3 * n)%Z
    /\ fir_filter L signal Fs cutoff w r
       = match firwin L n cutoff beta Fs with
         | Ok _ => Raise ValueError
         | Raise e => Raise e
         end.
Proof.
  intros R E C.
  destruct (int_cap signal) as (f & F & I & P).
  assert (G : guard_ok (Z.of_nat (length signal)) = false).
  { apply not_true_is_false. rewrite guard_ok_iff by lia.
    simpl in R |- *. lia. }
  unfold guard_ok in G. fold (Py.of_nat (length signal)) in G.
  fold (cap signal) in G. rewrite F in G. apply Z.ltb_ge in G.
  assert (T : fir_numtaps L signal Fs w r = Ok (Z.lor f 1, beta)).
  { unfold fir_numtaps. rewrite E. simpl. rewrite C, I. reflexivity. }
  exists (Z.lor f 1). split; [exact T |]. split; [exact G |].
  unfold fir_filter. rewrite T. simpl.
  destruct (firwin L (Z.lor f 1) cutoff beta Fs) as [h | e] eqn:W;
    [| reflexivity].
  simpl. apply firwin_length in W.
  unfold filtfilt, padlen.
  destruct (length signal <=? 3 * Nat.max 1 (length h))%nat eqn:Q;
    [reflexivity |].
  apply Nat.leb_gt in Q. lia.
Qed.

(** *** The stages of [SQI] *)

Lemma filtered_preprocess x Fs x_filt :
  filtered L x Fs x_filt -> preprocess L x Fs = Ok x_filt.
Proof.
  intros (d & D & F). unfold preprocess. rewrite D. exact F.
Qed.

Lemma SQI_preprocessed OD1 OD2 oxy dxy Fs f1 f2 f3 f4 :
  preprocessed L OD1 OD2 oxy dxy Fs f1 f2 f3 f4 ->
  SQI L OD1 OD2 oxy dxy Fs =
  if hb_ratio L f3 f4 <? 0.67 then Ok (SInt 1)
  else stage_two_three L f1 f2 f3 f4.
Proof.
  intros (A & H1 & H2 & H3 & H4).
  rewrite pass_A_fires_iff in A. apply not_true_is_false in A.
  apply orb_false_iff in A as [A1 A2].
  unfold SQI. rewrite A1, A2.
  rewrite (filtered_preprocess _ _ _ H1), (filtered_preprocess _ _ _ H2),
    (filtered_preprocess _ _ _ H3), (filtered_preprocess _ _ _ H4).
  reflexivity.
Qed.

Lemma stage_two_three_metric f1 f2 f3 f4 d :
  autocorr_difference L f1 f2 d ->
  stage_two_three L f1 f2 f3 f4 =
  if 40 <? 1 / np_std L d then Ok (SInt 5)
  else Ok (force (raw_score L f3 f4)).
Proof.
  intros (c1 & c2 & C1 & C2 & D).
  unfold stage_two_three, acorrDiffODs, autocorr.
  rewrite C1, C2. simpl. unfold Np.div_scalar, Np.square.
  rewrite D. reflexivity.
Qed.

(** C7: after the four channels are detrended and band-pass filtered L
    between 0.4 and 3 Hz, a logarithm of the ratio of the summed magnitudes
    of the filtered L hemoglobin signals below 0.67 makes [SQI] return 1;
    otherwise the result is that of the later stages on the filtered L
    signals. *)
Theorem pass_B_after_preprocessing OD1 OD2 oxy dxy Fs f1 f2 f3 f4 :
  preprocessed L OD1 OD2 oxy dxy Fs f1 f2 f3 f4 ->
  let ratio :=
    np_log L (np_sum L (map abs f3) / np_sum L (map abs f4)) in
  ((ratio <? 0.67) = true -> SQI L OD1 OD2 oxy dxy Fs = Ok (SInt 1))
  /\ ((ratio <? 0.67) = false ->
      SQI L OD1 OD2 oxy dxy Fs = stage_two_three L f1 f2 f3 f4).
Proof.
  intros P ratio. rewrite (SQI_preprocessed _ _ _ _ _ _ _ _ _ P).
  fold ratio. change (hb_ratio L f3 f4) with ratio.
  split; intros ->; reflexivity.
Qed.

(** C8: past the gates of stage one, with [d] the difference of the
    energy-normalised full autocorrelations of the filtered L optical
    densities, [SQI] returns 5 when [1 / std d] is strictly above 40 and
    otherwise the forced regression of stage three. *)
Theorem stage_two_gate OD1 OD2 oxy dxy Fs f1 f2 f3 f4 d :
  preprocessed L OD1 OD2 oxy dxy Fs f1 f2 f3 f4 ->
  (hb_ratio L f3 f4 <? 0.67) = false ->
  autocorr_difference L f1 f2 d ->
  let metric := 1 / np_std L d in
  ((40 <? metric) = true -> SQI L OD1 OD2 oxy dxy Fs = Ok (SInt 5))
  /\ ((40 <? metric) = false ->
      SQI L OD1 OD2 oxy dxy Fs = Ok (force (raw_score L f3 f4))).
Proof.
  intros P B D metric.
  rewrite (SQI_preprocessed _ _ _ _ _ _ _ _ _ P), B,
    (stage_two_three_metric _ _ _ _ _ D).
  fold metric. split; intros ->; reflexivity.
Qed.

(** No number is both above 5 and below 1. *)
Lemma above_5_not_below_1 x : (5 <? x) = true -> (x <? 1) = false.
Proof.
  rewrite !ltb_spec. unfold SFltb, SFcompare.
  change (Prim2SF 5) with (S754_finite false 5629499534213120 (-50)).
  change (Prim2SF 1) with (S754_finite false 4503599627370496 (-52)).
  destruct (Prim2SF x) as [s|s| |s m e]; intros H;
    try discriminate H;
    try (destruct s; [discriminate H | reflexivity]).
  destruct s; [discriminate H |].
  destruct (Z.compare_spec e (-52)) as [E | E | E]; trivial.
  - subst e. discriminate H.
  - destruct (Z.compare_spec (-50) e); try discriminate H; lia.
Qed.

Lemma force_spec x :
  score_value (force x) = clamp_spec 1 5 x
  /\ ((5 <? x) = true -> force x = SInt 5)
  /\ ((x <? 1) = true -> force x = SInt 1).
Proof.
  unfold force, clamp_spec. repeat split.
  - destruct (x <? 1), (5 <? x); reflexivity.
  - intros H. now rewrite (above_5_not_below_1 _ H), H.
  - now intros ->.
Qed.

(** C9: when neither gate of stage one nor the gate of stage two fires,
    [SQI] returns the regression [ln(std oxy / std dxy) * slope +
    intercept] clamped to [1, 5]: exactly 5 when the regression exceeds 5
    and exactly 1 when it is below 1. *)
Theorem stage_three_score OD1 OD2 oxy dxy Fs f1 f2 f3 f4 d :
  preprocessed L OD1 OD2 oxy dxy Fs f1 f2 f3 f4 ->
  (hb_ratio L f3 f4 <? 0.67) = false ->
  autocorr_difference L f1 f2 d ->
  (40 <? 1 / np_std L d) = false ->
  let raw :=
    np_log L (np_std L f3 / np_std L f4) * 1.795613343002295
    + 0.846108994828045 in
  exists s,
    SQI L OD1 OD2 oxy dxy Fs = Ok s
    /\ score_value s = clamp_spec 1 5 raw
    /\ ((5 <? raw) = true -> s = SInt 5)
    /\ ((raw <? 1) = true -> s = SInt 1).
Proof.
  intros P B D M raw. exists (force raw).
  rewrite (SQI_preprocessed _ _ _ _ _ _ _ _ _ P), B,
    (stage_two_three_metric _ _ _ _ _ D), M.
  split; [reflexivity | apply force_spec].
Qed.

(** C1 (the failing case): when the regression of stage three is NaN,
    both comparisons of the clamp are false and [SQI] returns the NaN, a
    score outside [1, 5]. *)
Theorem stage_three_returns_nan OD1 OD2 oxy dxy Fs f1 f2 f3 f4 d :
  preprocessed L OD1 OD2 oxy dxy Fs f1 f2 f3 f4 ->
  (hb_ratio L f3 f4 <? 0.67) = false ->
  autocorr_difference L f1 f2 d ->
  (40 <? 1 / np_std L d) = false ->
  is_nan (raw_score L f3 f4) = true ->
  SQI L OD1 OD2 oxy dxy Fs = Ok (SFloat (raw_score L f3 f4))
  /\ in_range (SFloat (raw_score L f3 f4)) = false.
Proof.
  intros P B D M N.
  rewrite (SQI_preprocessed _ _ _ _ _ _ _ _ _ P), B,
    (stage_two_three_metric _ _ _ _ _ D), M.
  unfold force, in_range.
  rewrite (FloatFacts.nan_ltb_l _ 1 N), (FloatFacts.nan_ltb_r 5 _ N),
    (FloatFacts.nan_leb_r 1 _ N).
  split; reflexivity.
Qed.

(** C10: when the first gate fires, the result is 1 whatever the
    hemoglobin signals and the sampling rate are, so two calls that share
    [OD1] and [OD2] return the same. *)
Theorem pass_A_ignores_hemoglobin_and_rate
  OD1 OD2 oxy dxy Fs oxy' dxy' Fs' :
  pass_A_fires L OD1 OD2 ->
  SQI L OD1 OD2 oxy dxy Fs = Ok (SInt 1)
  /\ SQI L OD1 OD2 oxy' dxy' Fs' = SQI L OD1 OD2 oxy dxy Fs.
Proof.
  intros A. apply pass_A_fires_iff in A.
  now rewrite !(SQI_pass_A _ _ _ _ _ A).
Qed.

(** X1: a sample of an optical density outside [0.04, 2.5],
    or an optical density whose computed standard deviation is zero,
    makes [SQI] return 1 before any call to [detrend] or [fir_filter]. *)
Theorem pass_A_returns_one OD1 OD2 oxy dxy Fs :
  pass_A_fires L OD1 OD2 -> SQI L OD1 OD2 oxy dxy Fs = Ok (SInt 1).
Proof.
  intros A. apply pass_A_fires_iff in A. now apply SQI_pass_A.
Qed.

(** C2 (amended): [SQI] checks no precondition.  Whatever the lengths,
    the samples and the sampling rate are, it returns 1 when the first
    gate fires; and when it raises, the first gate did not fire and the
    error is the one a call of the pipeline raised: the preprocessing of
    a channel or the autocorrelation feature of stage two. *)
Theorem errors_come_from_the_pipeline OD1 OD2 oxy dxy Fs :
  (pass_A_fires L OD1 OD2 -> SQI L OD1 OD2 oxy dxy Fs = Ok (SInt 1))
  /\ forall e, SQI L OD1 OD2 oxy dxy Fs = Raise e ->
       ~ pass_A_fires L OD1 OD2
       /\ (preprocess L OD1 Fs = Raise e
           \/ preprocess L OD2 Fs = Raise e
           \/ preprocess L oxy Fs = Raise e
           \/ preprocess L dxy Fs = Raise e
           \/ exists f1 f2,
                preprocess L OD1 Fs = Ok f1 /\ preprocess L OD2 Fs = Ok f2
                /\ acorrDiffODs L f1 f2 = Raise e).
Proof.
  split.
  - intros A. apply pass_A_fires_iff in A. now apply SQI_pass_A.
  - intros e H. split.
    + intros A. apply pass_A_fires_iff in A.
      rewrite (SQI_pass_A _ _ _ _ _ A) in H. discriminate H.
    + unfold SQI in H.
      destruct (out_of_range OD1 OD2); [discriminate H |].
      destruct (flat_line L OD1 OD2); [discriminate H |].
      step_bind H; [| injection H as <-; auto].
      step_bind H; [| injection H as <-; auto].
      step_bind H; [| injection H as <-; auto].
      step_bind H; [| injection H as <-; auto 6].
      destruct (_ <? thr_sumHbratio); [discriminate H |].
      unfold stage_two_three in H.
      step_bind H; [| injection H as <-; eauto 10].
      destruct (_ <? _); discriminate H.
Qed.

(** X2: every score [SQI] returns lies between 1 and 5, unless it is the
    NaN that stage three lets through. *)
Theorem score_in_range_unless_nan OD1 OD2 oxy dxy Fs s :
  SQI L OD1 OD2 oxy dxy Fs = Ok s ->
  in_range s = true \/ exists x, s = SFloat x /\ is_nan x = true.
Proof.
  unfold SQI. intros H.
  destruct (out_of_range OD1 OD2); [injection H as <-; now left |].
  destruct (flat_line L OD1 OD2); [injection H as <-; now left |].
  do 4 step_bind H.
  destruct (_ <? thr_sumHbratio); [injection H as <-; now left |].
  unfold stage_two_three in H. step_bind H.
  destruct (_ <? _); injection H as <-; [now left |].
  unfold force.
  destruct (regression L a1 a2 <? 1) eqn:Lo; [now left |].
  destruct (5 <? regression L a1 a2) eqn:Hi; [now left |].
  destruct (is_nan (regression L a1 a2)) eqn:N; [right; eauto |].
  left. simpl.
  rewrite (FloatFacts.not_ltb_leb _ 1 N eq_refl Lo),
    (FloatFacts.not_ltb_leb 5 _ eq_refl N Hi).
  reflexivity.
Qed.

(** On seven samples at 10 Hz the cap gives two taps, the lowest bit
    makes them three, and [filtfilt] needs more than nine samples. *)
Lemma fir_filter_seven_samples signal :
  length signal = 7%nat ->
  exists e, fir_filter L signal 10 [0.4; 3] 0.2 65 = Raise e.
Proof.
  intros Len. unfold fir_filter.
  assert (T : exists beta, fir_numtaps L signal 10 0.2 65 = Ok (3%Z, beta)).
  { eexists. unfold fir_numtaps, cap. rewrite Len. vm_compute. reflexivity. }
  destruct T as [beta T]. rewrite T. simpl.
  destruct (firwin L 3 [0.4; 3] beta 10) as [h | e] eqn:W; simpl; [| eauto].
  apply firwin_length in W.
  exists ValueError. unfold filtfilt, padlen.
  replace (length h) with 3%nat by lia. now rewrite Len.
Qed.

(** X3: a window of seven samples that passes the first gate makes [SQI]
    raise at 10 Hz, whatever the library computes. *)
Theorem seven_samples_raise OD1 OD2 oxy dxy :
  length OD1 = 7%nat ->
  ~ pass_A_fires L OD1 OD2 ->
  exists e, SQI L OD1 OD2 oxy dxy 10 = Raise e.
Proof.
  intros Len A.
  rewrite pass_A_fires_iff in A. apply not_true_is_false in A.
  apply orb_false_iff in A as [A1 A2].
  unfold SQI. rewrite A1, A2. unfold preprocess at 1.
  destruct (detrend L OD1) as [d | e] eqn:D; simpl; [| eauto].
  apply detrend_length in D. rewrite Len in D.
  destruct (fir_filter_seven_samples d D) as [e E].
  change width with 0.2. change ripple with 65.
  rewrite E. simpl. eauto.
Qed.
End Properties.

(** ** Runs of the reference library *)

Lemma filtered_run x f :
  preprocess reference x 10 = Ok f -> filtered reference x 10 f.
Proof.
  unfold preprocess, filtered. intros H.
  destruct (detrend reference x) as [d |]; [| discriminate H].
  exists d. split; [reflexivity | exact H].
Qed.

Lemma not_pass_A_run OD1 OD2 :
  out_of_range OD1 OD2 || flat_line reference OD1 OD2 = false ->
  ~ pass_A_fires reference OD1 OD2.
Proof.
  intros H A. apply pass_A_fires_iff in A. congruence.
Qed.

Lemma preprocessed_a :
  preprocessed reference OD1_a OD2_a oxy_a dxy_a 10 OD1_f OD2_f oxy_f dxy_f.
Proof.
  repeat split; try (apply filtered_run; vm_compute; reflexivity).
  apply not_pass_A_run. vm_compute. reflexivity.
Qed.

Lemma preprocessed_swapped :
  preprocessed reference OD1_a OD2_a dxy_a oxy_a 10 OD1_f OD2_f dxy_f oxy_f.
Proof.
  repeat split; try (apply filtered_run; vm_compute; reflexivity).
  apply not_pass_A_run. vm_compute. reflexivity.
Qed.

Lemma preprocessed_zero :
  preprocessed reference OD1_a OD2_a zeros_a zeros_a 10
    OD1_f OD2_f zeros_f zeros_f.
Proof.
  repeat split; try (apply filtered_run; vm_compute; reflexivity).
  apply not_pass_A_run. vm_compute. reflexivity.
Qed.

Lemma autocorr_difference_a : autocorr_difference reference OD1_f OD2_f acorr_d.
Proof.
  exists (value (correlate reference OD1_f OD1_f)),
    (value (correlate reference OD2_f OD2_f)).
  repeat split; vm_compute; reflexivity.
Qed.

(** Witness of C7: the two outcomes of the second gate of stage one. *)
Lemma pass_B_after_preprocessing_witness :
  SQI reference OD1_a OD2_a dxy_a oxy_a 10 = Ok (SInt 1)
  /\ SQI reference OD1_a OD2_a oxy_a dxy_a 10
     = stage_two_three reference OD1_f OD2_f oxy_f dxy_f.
Proof.
  split.
  - apply (proj1 (pass_B_after_preprocessing reference _ _ _ _ _ _ _ _ _
                    preprocessed_swapped)). vm_compute. reflexivity.
  - apply (proj2 (pass_B_after_preprocessing reference _ _ _ _ _ _ _ _ _
                    preprocessed_a)). vm_compute. reflexivity.
Defined.

Lemma preprocessed_same :
  preprocessed reference OD1_a OD1_a oxy_a dxy_a 10 OD1_f OD1_f oxy_f dxy_f.
Proof.
  repeat split; try (apply filtered_run; vm_compute; reflexivity).
  apply not_pass_A_run. vm_compute. reflexivity.
Qed.

Lemma autocorr_difference_same :
  autocorr_difference reference OD1_f OD1_f (repeat 0 19).
Proof.
  exists (value (correlate reference OD1_f OD1_f)),
    (value (correlate reference OD1_f OD1_f)).
  repeat split; vm_compute; reflexivity.
Qed.

(** Witness of C8: with identical optical densities the gate of stage two
    fires; with the two rhythms it does not. *)
Lemma stage_two_gate_witness :
  SQI reference OD1_a OD1_a oxy_a dxy_a 10 = Ok (SInt 5)
  /\ SQI reference OD1_a OD2_a oxy_a dxy_a 10
     = Ok (force (raw_score reference oxy_f dxy_f)).
Proof.
  split.
  - apply (proj1 (stage_two_gate reference _ _ _ _ _ _ _ _ _ (repeat 0 19)
                    preprocessed_same eq_refl autocorr_difference_same)).
    vm_compute. reflexivity.
  - apply (proj2 (stage_two_gate reference _ _ _ _ _ _ _ _ _ acorr_d
                    preprocessed_a eq_refl autocorr_difference_a)).
    vm_compute. reflexivity.
Defined.

(** Witness of C9. *)
Lemma stage_three_score_witness :
  exists s,
    SQI reference OD1_a OD2_a oxy_a dxy_a 10 = Ok s
    /\ score_value s
       = clamp_spec 1 5
           (np_log reference (np_std reference oxy_f / np_std reference dxy_f)
            * 1.795613343002295 + 0.846108994828045)
    /\ ((5 <? np_log reference (np_std reference oxy_f / np_std reference dxy_f)
              * 1.795613343002295 + 0.846108994828045) = true -> s = SInt 5)
    /\ ((np_log reference (np_std reference oxy_f / np_std reference dxy_f)
         * 1.795613343002295 + 0.846108994828045 <? 1) = true -> s = SInt 1).
Proof.
  apply (stage_three_score reference _ _ _ _ _ _ _ _ _ acorr_d
           preprocessed_a); try (vm_compute; reflexivity).
  exact autocorr_difference_a.
Defined.

(** Witness of C1: a valid input, the hemoglobin signals zero throughout,
    on which [SQI] returns NaN. *)
Lemma stage_three_returns_nan_witness :
  valid_input OD1_a OD2_a zeros_a zeros_a 10 = true
  /\ SQI reference OD1_a OD2_a zeros_a zeros_a 10
     = Ok (SFloat (raw_score reference zeros_f zeros_f))
  /\ in_range (SFloat (raw_score reference zeros_f zeros_f)) = false.
Proof.
  split; [vm_compute; reflexivity |].
  apply (stage_three_returns_nan reference _ _ _ _ _ _ _ _ _ acorr_d
           preprocessed_zero); try (vm_compute; reflexivity).
  exact autocorr_difference_a.
Defined.

(** The run of C1 spelled out: the score is the NaN itself. *)
Lemma zero_hemoglobin_scores_nan :
  SQI reference OD1_a OD2_a zeros_a zeros_a 10 = Ok (SFloat nan).
Proof. vm_compute. reflexivity. Qed.

(** Counterexample to C2: an input that breaks every precondition (lengths
    1, 0, 0 and 0, a negative sampling rate) is scored 1, and one whose
    last channel is a sample longer than the others gets a score as well. *)
Lemma invalid_input_is_scored :
  valid_input [0.03] [] [] [] (-1) = false
  /\ SQI reference [0.03] [] [] [] (-1) = Ok (SInt 1)
  /\ valid_input OD1_a OD2_a oxy_a (dxy_a ++ [-1]) 10 = false
  /\ exists s, SQI reference OD1_a OD2_a oxy_a (dxy_a ++ [-1]) 10 = Ok s.
Proof.
  repeat split; try (vm_compute; reflexivity).
  eexists. vm_compute. reflexivity.
Qed.

(** Witness of C2: a call scored by the first gate, and a call at a
    sampling rate of zero whose error is the [ZeroDivisionError] of
    preprocessing the first channel. *)
Lemma errors_come_from_the_pipeline_witness :
  SQI reference [0.03] [] [] [] (-1) = Ok (SInt 1)
  /\ (~ pass_A_fires reference OD1_a OD2_a
      /\ (preprocess reference OD1_a 0 = Raise ZeroDivisionError
          \/ preprocess reference OD2_a 0 = Raise ZeroDivisionError
          \/ preprocess reference oxy_a 0 = Raise ZeroDivisionError
          \/ preprocess reference dxy_a 0 = Raise ZeroDivisionError
          \/ exists f1 f2,
               preprocess reference OD1_a 0 = Ok f1
               /\ preprocess reference OD2_a 0 = Ok f2
               /\ acorrDiffODs reference f1 f2 = Raise ZeroDivisionError)).
Proof.
  split.
  - apply (proj1 (errors_come_from_the_pipeline reference
                    [0.03] [] [] [] (-1))).
    left. exists 0.03. split; [left; left; reflexivity | left; reflexivity].
  - apply (proj2 (errors_come_from_the_pipeline reference
                    OD1_a OD2_a oxy_a dxy_a 0)).
    vm_compute. reflexivity.
Defined.



(** Counterexample to C4: on seven samples at 10 Hz the tap count is 3,
    above [7 / 3.5 = 2]. *)
Lemma tap_count_exceeds_cap :
  exists beta,
    fir_numtaps reference OD1_7 10 0.2 65 = Ok (3%Z, beta)
    /\ Py.int_gt 3 (cap OD1_7) = true
    /\ (cap OD1_7 <? 3) = true.
Proof. eexists. repeat split; vm_compute; reflexivity. Qed.

(** Witness of C4: twenty samples at 10 Hz give five taps. *)
Lemma fir_numtaps_odd_within_one_of_cap_witness :
  Z.odd 5 = true /\ Py.int_gt (5 - 1) (cap signal_20) = false.
Proof.
  apply (fir_numtaps_odd_within_one_of_cap reference signal_20 10 0.2 65
           5 (0.1102 * (65 - 8.7))).
  vm_compute. reflexivity.
Defined.

(** Counterexample to C5: the estimated order is 200 at 10 Hz and 995 at
    50 Hz. *)
Lemma order_estimate_changes_with_rate :
  exists beta,
    order_estimate reference 10 0.2 65 = Ok (200%Z, beta)
    /\ order_estimate reference 50 0.2 65 = Ok (995%Z, beta).
Proof. eexists. split; vm_compute; reflexivity. Qed.

(** Witness of C5: one window parameter at 10 Hz and at 50 Hz. *)
Lemma order_estimate_depends_on_rate_witness :
  0.1102 * (65 - 8.7) = kaiser_beta reference (abs 65)
  /\ 0.1102 * (65 - 8.7) = 0.1102 * (65 - 8.7)
  /\ kaiserord reference 65 (0.2 / (0.5 * 10))
     = Ok (200%Z, 0.1102 * (65 - 8.7))
  /\ (0.2 / (0.5 * 10) = 0.2 / (0.5 * 50) -> 995%Z = 200%Z).
Proof.
  apply (order_estimate_depends_on_rate reference 10 50 0.2 65);
    vm_compute; reflexivity.
Defined.

(** C6 (the failing case): three samples of 0.1 are a flat line, yet their
    computed standard deviation is not zero (the mean of the three rounds
    away from 0.1), so the first gate does not fire and [SQI] goes on to
    filter the window, which here is too short and raises; a hundred
    samples of 0.1 are not seen as flat either. *)
Theorem flat_line_not_detected :
  out_of_range [0.1; 0.1; 0.1] [1; 1.5; 1.2] = false
  /\ (np_std reference [0.1; 0.1; 0.1] =? 0) = false
  /\ SQI reference [0.1; 0.1; 0.1] [1; 1.5; 1.2] [3; -3; 3] [1; -1; 1] 10
     = Raise ValueError
  /\ (np_std reference (repeat 0.1 100) =? 0) = false.
Proof. repeat split; vm_compute; reflexivity. Qed.

(** Witness of C10. *)
Lemma pass_A_ignores_hemoglobin_and_rate_witness :
  SQI reference [1; 0.03; 1.2] OD2_a oxy_a dxy_a 10 = Ok (SInt 1)
  /\ SQI reference [1; 0.03; 1.2] OD2_a [] [nan] (-1)
     = SQI reference [1; 0.03; 1.2] OD2_a oxy_a dxy_a 10.
Proof.
  apply (pass_A_ignores_hemoglobin_and_rate reference).
  left. exists 0.03. split; [left; right; left; reflexivity | left; reflexivity].
Defined.

(** Witness of X1: a single sample at 0.03, and a constant
    optical density whose standard deviation is computed as zero. *)
Lemma pass_A_returns_one_witness :
  SQI reference [1; 0.03; 1.2; 1; 1.1; 1; 1.2; 1; 1.1; 1] OD2_a oxy_a dxy_a 10
  = Ok (SInt 1)
  /\ SQI reference (repeat 1.5 10) OD2_a oxy_a dxy_a 10 = Ok (SInt 1).
Proof.
  split; apply (pass_A_returns_one reference).
  - left. exists 0.03. split; [left; right; left; reflexivity | left; reflexivity].
  - right. left. vm_compute. reflexivity.
Defined.

(** Witness of X2: a score strictly between the bounds. *)
Lemma score_in_range_unless_nan_witness :
  in_range (force (raw_score reference oxy_f dxy_f)) = true
  \/ exists x, force (raw_score reference oxy_f dxy_f) = SFloat x
               /\ is_nan x = true.
Proof.
  apply (score_in_range_unless_nan reference OD1_a OD2_a oxy_a dxy_a 10).
  vm_compute. reflexivity.
Defined.

(** Witness of X3. *)
Lemma seven_samples_raise_witness :
  exists e, SQI reference OD1_7 OD2_7 oxy_7 dxy_7 10 = Raise e.
Proof.
  apply (seven_samples_raise reference); [reflexivity |].
  apply not_pass_A_run. vm_compute. reflexivity.
Defined.

(** ** Signs of products and quotients *)

Module SignFacts.

Lemma shr_1_nonneg mrs : (0 <= shr_m mrs)%Z -> (0 <= shr_m (shr_1 mrs))%Z.
Proof.
  destruct mrs as [m r s]. simpl.
  destruct m as [| p | p]; [easy | | lia].
  destruct p; simpl; lia.
Qed.

Lemma iter_shr_1_nonneg p : forall mrs,
  (0 <= shr_m mrs)%Z -> (0 <= shr_m (iter_pos shr_1 p mrs))%Z.
Proof.
  induction p as [p IH | p IH |]; intros mrs H; simpl.
  - apply IH, IH, shr_1_nonneg, H.
  - apply IH, IH, H.
  - apply shr_1_nonneg, H.
Qed.

Lemma shr_fexp_nonneg m e l :
  (0 <= m)%Z -> (0 <= shr_m (fst (shr_fexp prec emax m e l)))%Z.
Proof.
  intros H. unfold shr_fexp, shr.
  assert (R : (0 <= shr_m (shr_record_of_loc m l))%Z)
    by (destruct l as [| []]; exact H).
  destruct (_ - e)%Z; simpl; trivial.
  now apply iter_shr_1_nonneg.
Qed.

(** Rounding a non-negative mantissa yields a zero, a finite number or an
    infinity of the given sign, never a NaN. *)
Lemma round_aux_sign s m e l :
  (0 <= m)%Z ->
  match binary_round_aux prec emax s m e l with
  | S754_nan => False
  | S754_zero s' | S754_infinity s' | S754_finite s' _ _ => s' = s
  end.
Proof.
  intros H. unfold binary_round_aux.
  pose proof (shr_fexp_nonneg m e l H) as H1.
  destruct (shr_fexp prec emax m e l) as [mrs' e']. simpl in H1.
  set (m' := round_nearest_even _ _).
  assert (H' : (0 <= m')%Z).
  { unfold m', round_nearest_even.
    destruct (loc_of_shr_record mrs') as [| []]; try lia.
    destruct (Z.even _); lia. }
  pose proof (shr_fexp_nonneg m' e' loc_Exact H') as H2.
  destruct (shr_fexp prec emax m' e' loc_Exact) as [mrs'' e'']. simpl in H2.
  destruct (shr_m mrs''); [reflexivity | | lia].
  now destruct (Z.leb _ _).
Qed.

Lemma signed_not_nan s x : signed s x -> is_nan x = false.
Proof.
  unfold signed. intros H. destruct (is_nan x) eqn:N; trivial.
  apply FloatFacts.is_nan_spec in N. now rewrite N in H.
Qed.

(** A positive finite number times or over a signed number keeps the
    sign of the latter. *)
Lemma mul_signed a ma ea s y :
  Prim2SF a = S754_finite false ma ea -> signed s y -> signed s (a * y).
Proof.
  unfold signed. rewrite mul_spec. intros ->. unfold SF64mul, SFmul.
  destruct (Prim2SF y) as [sy | sy | | sy my ey]; trivial.
  intros ->. apply round_aux_sign. lia.
Qed.

Lemma div_signed a ma ea s y :
  Prim2SF a = S754_finite false ma ea -> signed s y -> signed s (a / y).
Proof.
  unfold signed. rewrite div_spec. intros ->. unfold SF64div, SFdiv.
  destruct (Prim2SF y) as [sy | sy | | sy my ey]; trivial.
  intros ->. unfold SFdiv_core_binary.
  set (m' := match _ with Z.pos _ => _ | Z0 => _ | Z.neg _ => _ end).
  assert (M : (0 <= m')%Z).
  { unfold m'. destruct (_ - _ - _)%Z; try lia.
    apply Z.shiftl_nonneg. lia. }
  pose proof (Z.div_pos m' (Z.pos my) M ltac:(lia)) as Q.
  unfold Z.div in Q. destruct (Z.div_eucl m' (Z.pos my)) as [q r].
  now apply round_aux_sign.
Qed.

Lemma negative_leb_0 x : signed true x -> (x <=? 0) = true.
Proof.
  unfold signed. rewrite leb_spec.
  change (Prim2SF 0) with (S754_zero false).
  destruct (Prim2SF x) as [s | s | | s m e]; try easy; now intros ->.
Qed.

(** A number is positive, a NaN, a zero, or negative. *)
Lemma sign_cases x :
  (0 <? x) = true \/ is_nan x = true
  \/ (exists s, Prim2SF x = S754_zero s)
  \/ ((x <? 0) = true /\ signed true x).
Proof.
  unfold signed. rewrite FloatFacts.is_nan_spec, !ltb_spec.
  change (Prim2SF 0) with (S754_zero false).
  destruct (Prim2SF x) as [s | s | | s m e]; eauto;
    destruct s; simpl; auto.
Qed.

Lemma mul_nan_r x y : is_nan y = true -> is_nan (x * y) = true.
Proof.
  rewrite !FloatFacts.is_nan_spec, mul_spec. intros ->.
  unfold SF64mul, SFmul. now destruct (Prim2SF x).
Qed.

Lemma add_nan_l x y : is_nan x = true -> is_nan (x + y) = true.
Proof.
  rewrite !FloatFacts.is_nan_spec, add_spec. now intros ->.
Qed.

Lemma nan_eqb_l x y : is_nan x = true -> (x =? y) = false.
Proof.
  rewrite FloatFacts.is_nan_spec, eqb_spec. now intros ->.
Qed.

Lemma half_of_zero x s : Prim2SF x = S754_zero s -> (0.5 * x =? 0) = true.
Proof.
  intros H. rewrite eqb_spec, mul_spec, H. reflexivity.
Qed.

End SignFacts.

(** ** Further facts about binary64 numbers *)

Module MoreFloatFacts.

Lemma leb_not_ltb x y : (x <=? y) = true -> (y <? x) = false.
Proof.
  rewrite ltb_spec, leb_spec. unfold SFltb, SFleb, SFcompare.
  assert (A : forall mx my,
             Pos.compare_cont Eq my mx = CompOpp (Pos.compare_cont Eq mx my))
    by (intros; symmetry; apply (Pos.compare_cont_antisym mx my Eq)).
  destruct (Prim2SF x) as [sx|sx| |sx mx ex], (Prim2SF y) as [sy|sy| |sy my ey];
    try congruence; try (destruct sx, sy; simpl; congruence);
    try (destruct sx; simpl; congruence);
    try (destruct sy; simpl; congruence).
  destruct sx, sy; simpl; try congruence;
    rewrite (Z.compare_antisym ex ey), (A mx my);
    destruct (ex ?= ey)%Z; simpl; try congruence;
    destruct (Pos.compare_cont Eq mx my); simpl; congruence.
Qed.

Lemma leb_not_nan x y : (x <=? y) = true -> is_nan x = false /\ is_nan y = false.
Proof.
  intros H. split.
  - destruct (is_nan x) eqn:N; trivial.
    apply FloatFacts.is_nan_spec in N. rewrite leb_spec, N in H. discriminate H.
  - destruct (is_nan y) eqn:N; trivial.
    rewrite (FloatFacts.nan_leb_r x y N) in H. discriminate H.
Qed.

Lemma div_nan_r x y : is_nan y = true -> is_nan (x / y) = true.
Proof.
  rewrite !FloatFacts.is_nan_spec, div_spec. intros ->.
  unfold SF64div, SFdiv. now destruct (Prim2SF x).
Qed.

End MoreFloatFacts.

(** ** Further properties of the program *)

Section Further.

Variable L : Library.

(** What a returning call of [fir_filter] went through. *)
Lemma fir_filter_returns signal Fs cutoff w r y :
  fir_filter L signal Fs cutoff w r = Ok y ->
  exists n beta h,
    fir_numtaps L signal Fs w r = Ok (n, beta)
    /\ firwin L n cutoff beta Fs = Ok h
    /\ Z.of_nat (length h) = n
    /\ (padlen h < length signal)%nat
    /\ filtfilt_apply L h signal = Ok y.
Proof.
  unfold fir_filter. intros H.
  step_bind H. destruct a as [n beta]. step_bind H.
  exists n, beta, a. unfold filtfilt in H.
  destruct (length signal <=? padlen a)%nat eqn:G; [discriminate H |].
  apply Nat.leb_gt in G.
  repeat split; trivial. eapply firwin_length; eassumption.
Qed.

Lemma fir_filter_length signal Fs cutoff w r y :
  fir_filter L signal Fs cutoff w r = Ok y -> length y = length signal.
Proof.
  intros H. destruct (fir_filter_returns _ _ _ _ _ _ H)
    as (n & beta & h & _ & _ & _ & _ & A).
  exact (filtfilt_apply_length L _ _ _ A).
Qed.

Lemma preprocess_returns x Fs f :
  preprocess L x Fs = Ok f ->
  exists d, detrend L x = Ok d /\ length d = length x
            /\ fir_filter L d Fs [0.4; 3] 0.2 65 = Ok f.
Proof.
  unfold preprocess. intros H. step_bind H.
  exists a. repeat split; trivial. exact (detrend_length L _ _ E).
Qed.

(** X4: a channel that [SQI] preprocesses, detrended and then filtered by
    [fir_filter], comes back with as many samples as it had. *)
Theorem preprocess_keeps_length x Fs f :
  preprocess L x Fs = Ok f -> length f = length x.
Proof.
  intros H. destruct (preprocess_returns _ _ _ H) as (d & _ & Len & F).
  rewrite <- Len. exact (fir_filter_length _ _ _ _ _ _ F).
Qed.

(** X5: when [fir_filter] returns, the kernel it applied has an odd number
    [n >= 1] of coefficients, three times [n] is below the length of the
    signal, and the result is the library's zero-phase filtering of the
    signal by that kernel. *)
Theorem fir_filter_kernel signal Fs cutoff w r y :
  fir_filter L signal Fs cutoff w r = Ok y ->
  exists n beta h,
    fir_numtaps L signal Fs w r = Ok (n, beta)
    /\ firwin L n cutoff beta Fs = Ok h
    /\ filtfilt_apply L h signal = Ok y
    /\ Z.of_nat (length h) = n
    /\ Z.odd n = true /\ (1 <= n)%Z
    /\ (3 * n < Z.of_nat (length signal))%Z.
Proof.
  intros H. destruct (fir_filter_returns _ _ _ _ _ _ H)
    as (n & beta & h & T & W & Len & P & A).
  exists n, beta, h.
  destruct (fir_numtaps_bound L _ _ _ _ _ _ T) as [O _].
  assert (1 <= n)%Z.
  { destruct (length h) eqn:K; [simpl in Len; subst n; discriminate O | lia]. }
  repeat split; trivial.
  unfold padlen in P. lia.
Qed.

(** X6: a window of three samples or fewer is scored only by the first
    gate: whatever the sampling rate and the library, [SQI] returns on it
    only the 1 of a fired first gate, and raises otherwise. *)
Theorem short_window_scored_only_by_pass_A OD1 OD2 oxy dxy Fs s :
  (length OD1 <= 3)%nat ->
  SQI L OD1 OD2 oxy dxy Fs = Ok s ->
  pass_A_fires L OD1 OD2 /\ s = SInt 1.
Proof.
  intros Len H.
  destruct (out_of_range OD1 OD2 || flat_line L OD1 OD2) eqn:A.
  - rewrite (SQI_pass_A L _ _ _ _ _ A) in H. injection H as <-.
    split; [now apply pass_A_fires_iff | reflexivity].
  - exfalso. apply orb_false_iff in A as [A1 A2].
    unfold SQI in H. rewrite A1, A2 in H. step_bind H.
    destruct (preprocess_returns _ _ _ E) as (d & _ & Ld & F).
    destruct (fir_filter_returns _ _ _ _ _ _ F)
      as (n & beta & h & _ & _ & _ & P & _).
    unfold padlen in P. lia.
Qed.

(** With Python's division the program with the division as a parameter
    is [SQI]. *)
Lemma SQI_with_python : SQI_with L Py.div = SQI L.
Proof. reflexivity. Qed.

Lemma zero_cases x : (x =? 0) = true -> x = 0 \/ x = -0.
Proof.
  rewrite eqb_spec. intros H. rewrite <- (SF2Prim_Prim2SF x).
  destruct (Prim2SF x) as [[] | [] | | [] m e];
    try discriminate H; [right | left]; reflexivity.
Qed.

(** At a Nyquist frequency of zero the cut-offs divided by it are
    infinite, and [firwin] rejects them. *)
Lemma firwin_zero_rate n beta Fs :
  (0.5 * Fs =? 0) = true -> firwin L n [0.4; 3] beta Fs = Raise ValueError.
Proof.
  intros H. unfold firwin.
  destruct (zero_cases _ H) as [-> | ->]; reflexivity.
Qed.

(** With NumPy's division the transition width is infinite there, and
    the estimate of [kaiserord] is one tap. *)
Lemma order_estimate_with_zero_rate Fs :
  (0.5 * Fs =? 0) = true ->
  order_estimate_with L np_divide Fs width ripple
  = Ok (1%Z, 0.1102 * (65 - 8.7)).
Proof.
  intros H. unfold order_estimate_with, np_divide.
  destruct (zero_cases _ H) as [-> | ->]; vm_compute; reflexivity.
Qed.

Lemma fir_filter_with_zero_rate signal Fs :
  (0.5 * Fs =? 0) = true ->
  fir_filter_with L np_divide signal Fs [0.4; 3] width ripple
  = Raise ValueError.
Proof.
  intros H. unfold fir_filter_with, fir_numtaps_with.
  rewrite (order_estimate_with_zero_rate Fs H). simpl bind.
  destruct (int_cap signal) as (f & _ & -> & _).
  destruct (Py.int_gt 1 (cap signal)); simpl; now rewrite firwin_zero_rate.
Qed.

(** X7: at a sampling rate whose half is zero [SQI] raises unless the
    first gate fires, and the error depends on what kind of scalar [Fs]
    is.  As soon as the first channel is detrended, a Python number makes
    line 118 of [fir_filter] divide by zero, [ZeroDivisionError]; a NumPy
    scalar makes the transition width infinite, [kaiserord] ask for one
    tap, and [firwin] reject the cut-offs, [ValueError]. *)
Theorem zero_rate_raises OD1 OD2 oxy dxy Fs :
  (0.5 * Fs =? 0) = true ->
  ~ pass_A_fires L OD1 OD2 ->
  (exists e, SQI L OD1 OD2 oxy dxy Fs = Raise e)
  /\ (exists e, SQI_with L np_divide OD1 OD2 oxy dxy Fs = Raise e)
  /\ (forall d, detrend L OD1 = Ok d ->
      SQI L OD1 OD2 oxy dxy Fs = Raise ZeroDivisionError
      /\ SQI_with L np_divide OD1 OD2 oxy dxy Fs = Raise ValueError).
Proof.
  intros Z A.
  rewrite pass_A_fires_iff in A. apply not_true_is_false in A.
  apply orb_false_iff in A as [A1 A2].
  assert (F : forall d, fir_filter L d Fs [0.4; 3] width ripple
                        = Raise ZeroDivisionError).
  { intros d. unfold fir_filter, fir_numtaps, order_estimate, Py.div.
    now rewrite Z. }
  assert (S : SQI L OD1 OD2 oxy dxy Fs
              = match detrend L OD1 with
                | Ok _ => Raise ZeroDivisionError
                | Raise e => Raise e
                end).
  { unfold SQI. rewrite A1, A2. unfold preprocess at 1.
    destruct (detrend L OD1) as [d | e]; simpl; [| reflexivity].
    now rewrite F. }
  assert (T : SQI_with L np_divide OD1 OD2 oxy dxy Fs
              = match detrend L OD1 with
                | Ok _ => Raise ValueError
                | Raise e => Raise e
                end).
  { unfold SQI_with. rewrite A1, A2. unfold preprocess_with at 1.
    destruct (detrend L OD1) as [d | e]; simpl; [| reflexivity].
    now rewrite (fir_filter_with_zero_rate d Fs Z). }
  rewrite S, T. destruct (detrend L OD1) as [d | e].
  - repeat split; eauto.
  - repeat split; eauto; discriminate.
Qed.

Lemma fir_numtaps_length s1 s2 Fs w r :
  length s1 = length s2 ->
  fir_numtaps L s1 Fs w r = fir_numtaps L s2 Fs w r.
Proof.
  intros H. unfold fir_numtaps, cap. now rewrite H.
Qed.

(** X8: channels of one length are filtered by one kernel.  When [SQI]
    has preprocessed four channels of equal length, there is a single
    tap count and a single kernel from [firwin] such that every filtered
    channel is the library's zero-phase filtering of its detrended
    channel by that kernel. *)
Theorem equal_lengths_share_kernel OD1 OD2 oxy dxy Fs f1 f2 f3 f4 :
  preprocessed L OD1 OD2 oxy dxy Fs f1 f2 f3 f4 ->
  length OD1 = length OD2 -> length OD2 = length oxy ->
  length oxy = length dxy ->
  exists n beta h,
    firwin L n [0.4; 3] beta Fs = Ok h
    /\ Z.of_nat (length h) = n
    /\ forall x f, In (x, f) [(OD1, f1); (OD2, f2); (oxy, f3); (dxy, f4)] ->
         exists d, detrend L x = Ok d
                   /\ fir_numtaps L d Fs 0.2 65 = Ok (n, beta)
                   /\ filtfilt_apply L h d = Ok f.
Proof.
  intros (_ & (d1 & D1 & F1) & (d2 & D2 & F2) & (d3 & D3 & F3)
          & (d4 & D4 & F4)) E12 E23 E34.
  pose proof (detrend_length L _ _ D1) as L1.
  pose proof (detrend_length L _ _ D2) as L2.
  pose proof (detrend_length L _ _ D3) as L3.
  pose proof (detrend_length L _ _ D4) as L4.
  destruct (fir_filter_returns _ _ _ _ _ _ F1)
    as (n & beta & h & T1 & W & Len & _ & A1).
  assert (K : forall d f,
             length d = length d1 ->
             fir_filter L d Fs [0.4; 3] 0.2 65 = Ok f ->
             fir_numtaps L d Fs 0.2 65 = Ok (n, beta)
             /\ filtfilt_apply L h d = Ok f).
  { intros d f Ld F.
    destruct (fir_filter_returns _ _ _ _ _ _ F)
      as (n' & beta' & h' & T & W' & _ & _ & A).
    rewrite (fir_numtaps_length d d1 Fs 0.2 65 Ld), T1 in T.
    injection T as <- <-. rewrite W in W'. injection W' as <-.
    split; [| exact A].
    now rewrite (fir_numtaps_length d d1 Fs 0.2 65 Ld). }
  exists n, beta, h. repeat split; trivial.
  intros x f [H | [H | [H | [H | []]]]]; injection H as <- <-.
  - exists d1. split; [exact D1 | apply K; trivial].
  - exists d2. split; [exact D2 | apply K; [congruence | trivial]].
  - exists d3. split; [exact D3 | apply K; [congruence | trivial]].
  - exists d4. split; [exact D4 | apply K; [congruence | trivial]].
Qed.

(** X9: a NaN feature fires no gate.  When the ratio feature of the
    second gate of stage one is NaN, [SQI] goes on to stage two; when
    moreover the standard deviation of the autocorrelation difference is
    NaN, it goes on to stage three and returns the forced regression. *)
Theorem nan_features_fire_no_gate OD1 OD2 oxy dxy Fs f1 f2 f3 f4 :
  preprocessed L OD1 OD2 oxy dxy Fs f1 f2 f3 f4 ->
  is_nan (np_log L (np_sum L (map abs f3) / np_sum L (map abs f4))) = true ->
  SQI L OD1 OD2 oxy dxy Fs = stage_two_three L f1 f2 f3 f4
  /\ forall d, autocorr_difference L f1 f2 d ->
       is_nan (np_std L d) = true ->
       SQI L OD1 OD2 oxy dxy Fs = Ok (force (raw_score L f3 f4)).
Proof.
  intros P N.
  rewrite (SQI_preprocessed L _ _ _ _ _ _ _ _ _ P).
  unfold hb_ratio. rewrite (FloatFacts.nan_ltb_l _ 0.67 N).
  split; [reflexivity |].
  intros d D Nd. rewrite (stage_two_three_metric L _ _ _ _ _ D).
  now rewrite (FloatFacts.nan_ltb_r 40 _ (MoreFloatFacts.div_nan_r 1 _ Nd)).
Qed.

Lemma sub_raises a b :
  (2 <= length a)%nat -> (2 <= length b)%nat -> length a <> length b ->
  Np.sub a b = Raise ValueError.
Proof.
  intros Ha Hb N. unfold Np.sub.
  destruct (length a =? length b)%nat eqn:E;
    [apply Nat.eqb_eq in E; contradiction |].
  destruct a as [| x [| x' a]]; simpl in Ha; try lia.
  destruct b as [| y [| y' b]]; simpl in Hb; try lia.
  reflexivity.
Qed.

(** X10: optical densities of different lengths are noticed only in
    stage two.  When the four channels were preprocessed, the second gate
    of stage one did not fire and each autocorrelation has the [2 N - 1]
    lags of a full correlation, lengths of [OD1] and [OD2] that differ
    make the subtraction of the autocorrelations raise [ValueError]. *)
Theorem od_length_mismatch_raises OD1 OD2 oxy dxy Fs f1 f2 f3 f4 c1 c2 :
  preprocessed L OD1 OD2 oxy dxy Fs f1 f2 f3 f4 ->
  (hb_ratio L f3 f4 <? 0.67) = false ->
  correlate L f1 f1 = Ok c1 -> correlate L f2 f2 = Ok c2 ->
  length c1 = (2 * length f1 - 1)%nat ->
  length c2 = (2 * length f2 - 1)%nat ->
  length OD1 <> length OD2 ->
  SQI L OD1 OD2 oxy dxy Fs = Raise ValueError.
Proof.
  intros P B C1 C2 Lc1 Lc2 N.
  rewrite (SQI_preprocessed L _ _ _ _ _ _ _ _ _ P), B.
  destruct P as (_ & P1 & P2 & _).
  apply filtered_preprocess in P1, P2.
  destruct (preprocess_returns _ _ _ P1) as (d1 & _ & Ld1 & F1).
  destruct (preprocess_returns _ _ _ P2) as (d2 & _ & Ld2 & F2).
  pose proof (fir_filter_length _ _ _ _ _ _ F1) as Lf1.
  pose proof (fir_filter_length _ _ _ _ _ _ F2) as Lf2.
  destruct (fir_filter_returns _ _ _ _ _ _ F1) as (? & ? & h1 & _ & _ & _ & Q1 & _).
  destruct (fir_filter_returns _ _ _ _ _ _ F2) as (? & ? & h2 & _ & _ & _ & Q2 & _).
  unfold padlen in Q1, Q2.
  unfold stage_two_three, acorrDiffODs, autocorr.
  rewrite C1, C2. simpl.
  rewrite sub_raises; [reflexivity | | |];
    unfold Np.div_scalar; rewrite ?length_map; lia.
Qed.

(** X11: the range test of the first gate, NaN included.  It passes
    exactly when every sample of [OD1] and [OD2] is a NaN or lies in
    [[0.04, 2.5]]: a NaN sample is never out of range. *)
Theorem out_of_range_false_iff OD1 OD2 :
  out_of_range OD1 OD2 = false <->
  forall x, In x (OD1 ++ OD2) ->
    is_nan x = true \/ ((0.04 <=? x) && (x <=? 2.5)) = true.
Proof.
  assert (S : forall x, (x <? 0.04) = false /\ (2.5 <? x) = false <->
              is_nan x = true \/ ((0.04 <=? x) && (x <=? 2.5)) = true).
  { intros x. split.
    - intros [Lo Hi]. destruct (is_nan x) eqn:Nx; [now left | right].
      now rewrite (FloatFacts.not_ltb_leb x 0.04 Nx eq_refl Lo),
        (FloatFacts.not_ltb_leb 2.5 x eq_refl Nx Hi).
    - intros [Nx | R].
      + split; [apply FloatFacts.nan_ltb_l | apply FloatFacts.nan_ltb_r];
          exact Nx.
      + apply andb_true_iff in R as [Lo Hi].
        split; now apply MoreFloatFacts.leb_not_ltb. }
  assert (G : forall a, (Np.any_lt a 0.04 || Np.any_gt a 2.5) = false <->
              forall x, In x a ->
                is_nan x = true \/ ((0.04 <=? x) && (x <=? 2.5)) = true).
  { intros a. unfold Np.any_lt, Np.any_gt. rewrite orb_false_iff. split.
    - intros [Lo Hi] x Hx. apply S. split.
      + destruct (x <? 0.04) eqn:E; trivial.
        assert (existsb (fun x => x <? 0.04) a = true)
          by (apply existsb_exists; eauto). congruence.
      + destruct (2.5 <? x) eqn:E; trivial.
        assert (existsb (fun x => 2.5 <? x) a = true)
          by (apply existsb_exists; eauto). congruence.
    - intros H. split; apply not_true_is_false; intros E;
        apply existsb_exists in E as (x & Hx & E);
        destruct (proj2 (S x) (H x Hx)); congruence. }
  unfold out_of_range, thrLow_intensity, thrUp_intensity.
  rewrite <- orb_assoc, orb_false_iff, !G. split.
  - intros [H1 H2] x Hx. apply in_app_or in Hx as [Hx | Hx]; auto.
  - intros H. split; intros x Hx; apply H, in_or_app; auto.
Qed.

(** [firwin] rejects the band from 0.4 Hz to 3 Hz at a negative sampling
    rate: the normalised cut-off frequencies are not positive. *)
Lemma firwin_negative_rate n beta Fs :
  signed true Fs ->
  firwin L n [0.4; 3] beta Fs = Raise ValueError.
Proof.
  intros S. unfold firwin, Np.div_scalar. simpl map.
  pose proof (SignFacts.mul_signed 0.5 _ _ _ _ eq_refl S) as Sn.
  pose proof (SignFacts.div_signed 0.4 _ _ _ _ eq_refl Sn) as S1.
  pose proof (SignFacts.div_signed 3 _ _ _ _ eq_refl Sn) as S2.
  set (c1 := 0.4 / (0.5 * Fs)) in *. set (c2 := 3 / (0.5 * Fs)) in *.
  assert (M : (Np.min [c1; c2] <=? 0) = true).
  { unfold Np.min, Np.pick. simpl.
    rewrite (SignFacts.signed_not_nan _ _ S1),
      (SignFacts.signed_not_nan _ _ S2).
    destruct (c2 <? c1); now apply SignFacts.negative_leb_0. }
  simpl length. simpl Nat.eqb. cbv iota. now rewrite M.
Qed.

Lemma order_estimate_nan_rate Fs w r :
  is_nan Fs = true -> exists e, order_estimate L Fs w r = Raise e.
Proof.
  intros N. unfold order_estimate, Py.div.
  pose proof (SignFacts.mul_nan_r 0.5 _ N) as N1.
  rewrite (SignFacts.nan_eqb_l _ 0 N1). simpl.
  pose proof (MoreFloatFacts.div_nan_r w _ N1) as N2.
  unfold kaiserord. destruct (abs r <? 8); [eauto |].
  unfold Py.div.
  pose proof (SignFacts.mul_nan_r pi _ N2) as N3.
  rewrite (SignFacts.nan_eqb_l _ 0 N3). simpl.
  pose proof (MoreFloatFacts.div_nan_r ((abs r - 7.95) / 2.285) _ N3) as N4.
  pose proof (SignFacts.add_nan_l _ 1 N4) as N5.
  unfold Py.ceil, Py.to_int, Py.ceiling.
  rewrite N5. apply FloatFacts.is_nan_spec in N5. rewrite N5.
  simpl. eauto.
Qed.

(** [fir_filter] returns on the band of [SQI] only at a positive sampling
    rate. *)
Lemma fir_filter_positive_rate signal Fs w r y :
  fir_filter L signal Fs [0.4; 3] w r = Ok y -> (0 <? Fs) = true.
Proof.
  intros H.
  destruct (SignFacts.sign_cases Fs) as [P | [N | [[s Z] | [_ S]]]]; trivial;
    exfalso.
  - destruct (order_estimate_nan_rate Fs w r N) as [e E].
    unfold fir_filter, fir_numtaps in H. rewrite E in H. discriminate H.
  - unfold fir_filter, fir_numtaps, order_estimate, Py.div in H.
    rewrite (SignFacts.half_of_zero _ _ Z) in H. discriminate H.
  - destruct (fir_filter_returns _ _ _ _ _ _ H) as (n & beta & h & _ & W & _).
    rewrite (firwin_negative_rate _ _ _ S) in W. discriminate W.
Qed.

(** X12: a score needs a positive sampling rate.  When [SQI] returns and
    the first gate did not fire, [0 < Fs]: at a sampling rate that is
    zero, negative or NaN the pipeline raises in [fir_filter]. *)
Theorem score_needs_positive_rate OD1 OD2 oxy dxy Fs s :
  SQI L OD1 OD2 oxy dxy Fs = Ok s ->
  pass_A_fires L OD1 OD2 \/ (0 <? Fs) = true.
Proof.
  intros H.
  destruct (out_of_range OD1 OD2 || flat_line L OD1 OD2) eqn:A.
  - left. now apply pass_A_fires_iff.
  - right. apply orb_false_iff in A as [A1 A2].
    unfold SQI in H. rewrite A1, A2 in H. step_bind H.
    destruct (preprocess_returns _ _ _ E) as (d & _ & _ & F).
    exact (fir_filter_positive_rate _ _ _ _ _ F).
Qed.

(** X13: the scores [SQI] can return.  A returned score is the integer 1,
    the integer 5, or a float; a float is always the regression of stage
    three on the filtered hemoglobin signals, unchanged, and is neither
    below 1 nor above 5. *)
Theorem float_score_is_regression OD1 OD2 oxy dxy Fs s :
  SQI L OD1 OD2 oxy dxy Fs = Ok s ->
  s = SInt 1 \/ s = SInt 5
  \/ exists oxy_filt dxy_filt,
       preprocess L oxy Fs = Ok oxy_filt
       /\ preprocess L dxy Fs = Ok dxy_filt
       /\ s = SFloat (np_log L (np_std L oxy_filt / np_std L dxy_filt)
                      * 1.795613343002295 + 0.846108994828045)
       /\ (score_value s <? 1) = false /\ (5 <? score_value s) = false.
Proof.
  unfold SQI. intros H.
  destruct (out_of_range OD1 OD2); [injection H as <-; now left |].
  destruct (flat_line L OD1 OD2); [injection H as <-; now left |].
  do 4 step_bind H.
  destruct (_ <? thr_sumHbratio); [injection H as <-; now left |].
  unfold stage_two_three in H. step_bind H.
  destruct (_ <? _); injection H as <-; [now right; left |].
  unfold force.
  destruct (regression L a1 a2 <? 1) eqn:Lo; [now left |].
  destruct (5 <? regression L a1 a2) eqn:Hi; [now right; left |].
  right. right. exists a1, a2. repeat split; trivial.
Qed.

End Further.

(** ** Further runs of the reference library *)

(** Witness of X4. *)
Lemma preprocess_keeps_length_witness : length OD1_f = length OD1_a.
Proof.
  apply (preprocess_keeps_length reference OD1_a 10). vm_compute. reflexivity.
Defined.

(** Witness of X5: twenty samples at 10 Hz. *)
Lemma fir_filter_kernel_witness :
  exists n beta h,
    fir_numtaps reference signal_20 10 0.2 65 = Ok (n, beta)
    /\ firwin reference n [0.4; 3] beta 10 = Ok h
    /\ filtfilt_apply reference h signal_20 = Ok filtered_20
    /\ Z.of_nat (length h) = n
    /\ Z.odd n = true /\ (1 <= n)%Z
    /\ (3 * n < Z.of_nat (length signal_20))%Z.
Proof.
  apply (fir_filter_kernel reference signal_20 10 [0.4; 3] 0.2 65).
  vm_compute. reflexivity.
Defined.

(** Witness of X6: three samples, one of them below the range. *)
Lemma short_window_scored_only_by_pass_A_witness :
  pass_A_fires reference [1; 0.03; 1.2] [1; 1.5; 1.2] /\ SInt 1 = SInt 1.
Proof.
  apply (short_window_scored_only_by_pass_A reference
           [1; 0.03; 1.2] [1; 1.5; 1.2] [3; -3; 3] [1; -1; 1] 10).
  - simpl. lia.
  - vm_compute. reflexivity.
Defined.

(** Witness of X7: a sampling rate of zero. *)
Lemma zero_rate_raises_witness :
  (exists e, SQI reference OD1_a OD2_a oxy_a dxy_a 0 = Raise e)
  /\ (exists e, SQI_with reference np_divide OD1_a OD2_a oxy_a dxy_a 0
                = Raise e)
  /\ (forall d, detrend reference OD1_a = Ok d ->
      SQI reference OD1_a OD2_a oxy_a dxy_a 0 = Raise ZeroDivisionError
      /\ SQI_with reference np_divide OD1_a OD2_a oxy_a dxy_a 0
         = Raise ValueError).
Proof.
  apply (zero_rate_raises reference); [reflexivity |].
  apply not_pass_A_run. vm_compute. reflexivity.
Defined.

(** Witness of X14: seven samples at 10 Hz, an estimate of 200 taps capped
    to two and made three. *)
Lemma capped_length_check_fails_witness :
  exists n,
    fir_numtaps reference OD1_7 10 0.2 65 = Ok (n, 0.1102 * (65 - 8.7))
    /\ (Z.of_nat (length OD1_7) <= 3 * n)%Z
    /\ fir_filter reference OD1_7 10 [0.4; 3] 0.2 65
       = match firwin reference n [0.4; 3] (0.1102 * (65 - 8.7)) 10 with
         | Ok _ => Raise ValueError
         | Raise e => Raise e
         end.
Proof.
  apply (capped_length_check_fails reference OD1_7 10 0.2 65 [0.4; 3] 200).
  - right. simpl. lia.
  - vm_compute. reflexivity.
  - vm_compute. reflexivity.
Defined.

(** Witness of X8. *)
Lemma equal_lengths_share_kernel_witness :
  exists n beta h,
    firwin reference n [0.4; 3] beta 10 = Ok h
    /\ Z.of_nat (length h) = n
    /\ forall x f,
         In (x, f) [(OD1_a, OD1_f); (OD2_a, OD2_f); (oxy_a, oxy_f);
                    (dxy_a, dxy_f)] ->
         exists d, detrend reference x = Ok d
                   /\ fir_numtaps reference d 10 0.2 65 = Ok (n, beta)
                   /\ filtfilt_apply reference h d = Ok f.
Proof.
  apply (equal_lengths_share_kernel reference _ _ _ _ _ _ _ _ _
           preprocessed_a); reflexivity.
Defined.

(** Witness of X9: hemoglobin signals that are zero throughout make the
    ratio feature a NaN. *)
Lemma nan_features_fire_no_gate_witness :
  SQI reference OD1_a OD2_a zeros_a zeros_a 10
  = stage_two_three reference OD1_f OD2_f zeros_f zeros_f
  /\ forall d, autocorr_difference reference OD1_f OD2_f d ->
       is_nan (np_std reference d) = true ->
       SQI reference OD1_a OD2_a zeros_a zeros_a 10
       = Ok (force (raw_score reference zeros_f zeros_f)).
Proof.
  apply (nan_features_fire_no_gate reference _ _ _ _ _ _ _ _ _
           preprocessed_zero).
  vm_compute. reflexivity.
Defined.

Lemma preprocessed_b :
  preprocessed reference OD1_a OD2_b oxy_a dxy_a 10 OD1_f OD2_bf oxy_f dxy_f.
Proof.
  repeat split; try (apply filtered_run; vm_compute; reflexivity).
  apply not_pass_A_run. vm_compute. reflexivity.
Qed.

(** Witness of X10: ten samples of [OD1], eleven of [OD2]. *)
Lemma od_length_mismatch_raises_witness :
  SQI reference OD1_a OD2_b oxy_a dxy_a 10 = Raise ValueError.
Proof.
  apply (od_length_mismatch_raises reference _ _ _ _ _ _ _ _ _
           (value (correlate reference OD1_f OD1_f))
           (value (correlate reference OD2_bf OD2_bf))
           preprocessed_b);
    try (vm_compute; reflexivity).
  simpl. lia.
Defined.

(** Witness of X12. *)
Lemma score_needs_positive_rate_witness :
  pass_A_fires reference OD1_a OD2_a \/ (0 <? 10) = true.
Proof.
  apply (score_needs_positive_rate reference OD1_a OD2_a oxy_a dxy_a 10
           (force (raw_score reference oxy_f dxy_f))).
  vm_compute. reflexivity.
Defined.

(** Witness of X13: a float score. *)
Lemma float_score_is_regression_witness :
  force (raw_score reference oxy_f dxy_f) = SInt 1
  \/ force (raw_score reference oxy_f dxy_f) = SInt 5
  \/ exists oxy_filt dxy_filt,
       preprocess reference oxy_a 10 = Ok oxy_filt
       /\ preprocess reference dxy_a 10 = Ok dxy_filt
       /\ force (raw_score reference oxy_f dxy_f)
          = SFloat (np_log reference
                      (np_std reference oxy_filt / np_std reference dxy_filt)
                    * 1.795613343002295 + 0.846108994828045)
       /\ (score_value (force (raw_score reference oxy_f dxy_f)) <? 1) = false
       /\ (5 <? score_value (force (raw_score reference oxy_f dxy_f))) = false.
Proof.
  apply (float_score_is_regression reference OD1_a OD2_a oxy_a dxy_a 10).
  vm_compute. reflexivity.
Defined.
